(** * PC Builder Pro: compatibility engine, spreadsheet import and catalog

    A shallow embedding of [src/pc-builder-pro/src/App.tsx]:
    [estimateWattage], [checkCompatibility], [normalizeHeader], the per-row
    body of [parseWorkbookToProducts], [deleteProduct] and [selectPart].

    The program is dynamically typed where it matters ([attributes] is a
    [Record<string, any>]), so attribute values are modelled as JavaScript
    values and the operators the source applies to them ([||], [+], [<],
    [!==], [.includes], [?.join], template literals, [Number]) follow
    ECMAScript on that value type, [TypeError]s included.

    Modelling boundaries, stated once:
    - numbers: the quantities of the catalog (watts, slots, gigabytes, baht,
      stock) are integers; [num] holds the integer-valued numbers and [NaN].
      Fractions, infinities and the rounding of doubles are not represented.
      [StringToNumber] reads every numeric literal of the language and is
      defined where the literal denotes an integer of magnitude at most
      2^53, which a double holds exactly, and where the string is no
      literal at all; the other literals lie outside the model. Negative
      zero is 0: the program neither divides by it nor prints its sign;
    - strings are the UTF-8 bytes of the JavaScript string;
    - objects are finite maps of own data properties, without prototypes;
    - arrays and objects that sit in two different products are different
      references (every product comes out of [JSON.parse], a literal or a
      fresh import row), so [===] never identifies them. *)

From Stdlib Require Import ZArith NArith Ascii String List Bool Lia.
From stdpp Require Import gmap strings list fin_maps pretty.

Set Warnings "-register-all".

Open Scope string_scope.
Open Scope Z_scope.

(** ** JavaScript values *)

Inductive num :=
| Int (z : Z)
| NaN.

Inductive value :=
| VUndef
| VNull
| VBool (b : bool)
| VNum (n : num)
| VStr (s : string)
| VArr (elems : list value)
| VObj (props : list (string * value)).

#[global] Instance num_eq_dec : EqDecision num.
Proof. solve_decision. Defined.

(** ** Strings as bytes *)

Module Str.

Definition bytes (s : string) : list N :=
  N_of_ascii <$> list_ascii_of_string s.

Definition of_bytes (l : list N) : string :=
  string_of_list_ascii (ascii_of_N <$> l).

Fixpoint is_prefix (p l : list N) : bool :=
  match p, l with
  | [], _ => true
  | a :: p', b :: l' => (a =? b)%N && is_prefix p' l'
  | _ :: _, [] => false
  end.

(** [String.prototype.includes]: [p] occurs in [l] as a contiguous run. *)
Fixpoint occurs (p l : list N) : bool :=
  is_prefix p l ||
  match l with
  | [] => false
  | _ :: l' => occurs p l'
  end.

Definition includes (s sub : string) : bool := occurs (bytes sub) (bytes s).

(** The code points of WhiteSpace and LineTerminator, in UTF-8:
    TAB LF VT FF CR SP, U+00A0, U+1680, U+2000..U+200A, U+2028, U+2029,
    U+202F, U+205F, U+3000, U+FEFF. *)
Definition white : list (list N) :=
  [ [9]; [10]; [11]; [12]; [13]; [32]; [194; 160]; [225; 154; 128];
    [226; 128; 128]; [226; 128; 129]; [226; 128; 130]; [226; 128; 131];
    [226; 128; 132]; [226; 128; 133]; [226; 128; 134]; [226; 128; 135];
    [226; 128; 136]; [226; 128; 137]; [226; 128; 138];
    [226; 128; 168]; [226; 128; 169]; [226; 128; 175];
    [226; 129; 159]; [227; 128; 128]; [239; 187; 191] ]%N.

Definition white_prefix (seqs : list (list N)) (l : list N) : option nat :=
  List.length <$> List.find (fun w => is_prefix w l) seqs.

Fixpoint strip (seqs : list (list N)) (fuel : nat) (l : list N) : list N :=
  match fuel with
  | O => l
  | S fuel' =>
      match white_prefix seqs l with
      | Some k => strip seqs fuel' (drop k l)
      | None => l
      end
  end.

Definition trimStart (l : list N) : list N := strip white (List.length l) l.

Definition trimEnd (l : list N) : list N :=
  rev (strip (map (fun w => rev w) white) (List.length l) (rev l)).

(** [String.prototype.trim]. *)
Definition trim (s : string) : string :=
  of_bytes (trimEnd (trimStart (bytes s))).

(** [s.split(",")] on bytes: the pieces between the separators. *)
Fixpoint split_on (sep : N) (cur : list N) (l : list N) : list (list N) :=
  match l with
  | [] => [rev cur]
  | c :: l' =>
      if (c =? sep)%N then rev cur :: split_on sep [] l'
      else split_on sep (c :: cur) l'
  end.

Definition split_comma (s : string) : list string :=
  of_bytes <$> split_on 44%N [] (bytes s).

(** Lexicographic order, the order of [<] on two strings (on bytes here,
    which orders as UTF-16 code units do below U+E000). *)
Fixpoint lt (a b : list N) : bool :=
  match a, b with
  | _, [] => false
  | [], _ :: _ => true
  | x :: a', y :: b' => (x <? y)%N || ((x =? y)%N && lt a' b')
  end.

(** [String.prototype.toLowerCase], exact on what lowercases to ASCII:
    A..Z, U+212A KELVIN SIGN (to k) and U+0130 (to i followed by U+0307).
    Every other code point outside ASCII lowercases to code points outside
    ASCII and is left as it is; the source only strips such bytes or
    compares the result with a word of ASCII letters. *)
Fixpoint lower (l : list N) : list N :=
  match l with
  | [] => []
  | c :: r =>
      match c, r with
      | 226, 132 :: 170 :: r' => 107 :: lower r'
      | 196, 176 :: r' => 105 :: 204 :: 135 :: lower r'
      | _, _ => (if (65 <=? c) && (c <=? 90) then c + 32 else c) :: lower r
      end
  end%N.

Definition toLowerCase (s : string) : string := of_bytes (lower (bytes s)).

End Str.

(** ** Numeric literals

    The grammar StringNumericLiteral of ECMAScript (7.1.4.1), on the bytes
    of the trimmed string, with the mathematical value of each literal. *)

Module Literal.

(** The value of a literal: an infinity, or [mantissa * 10 ^ exponent],
    with a sign. *)
Inductive t :=
| Infinity (negative : bool)
| Decimal (negative : bool) (mantissa : Z) (exponent : Z).

Definition is_digit (c : N) : bool := ((48 <=? c) && (c <=? 57))%N.

(** The value of a digit 0-9, a-f or A-F when the radix has it. *)
Definition digit (radix : Z) (c : N) : option Z :=
  let d :=
    if is_digit c then Z.of_N c - 48
    else if ((97 <=? c) && (c <=? 102))%N then Z.of_N c - 87
    else if ((65 <=? c) && (c <=? 70))%N then Z.of_N c - 55
    else radix in
  if d <? radix then Some d else None.

Fixpoint digits (radix acc : Z) (l : list N) : option Z :=
  match l with
  | [] => Some acc
  | c :: l' =>
      match digit radix c with
      | Some d => digits radix (radix * acc + d) l'
      | None => None
      end
  end.

(** DecimalDigits, BinaryDigits, OctalDigits, HexDigits: a run of at least
    one digit, and nothing after it. *)
Definition Digits (radix : Z) (l : list N) : option Z :=
  match l with
  | [] => None
  | _ :: _ => digits radix 0 l
  end.

(** The decimal digits [l] starts with, and what follows them. *)
Fixpoint leading_digits (l : list N) : list N * list N :=
  match l with
  | [] => ([], [])
  | c :: l' =>
      if is_digit c then
        let '(ds, rest) := leading_digits l' in (c :: ds, rest)
      else ([], l)
  end.

(** SignedInteger: DecimalDigits, with [+] or [-] in front or without. *)
Definition SignedInteger (l : list N) : option Z :=
  match l with
  | 43%N :: l' => Digits 10 l'
  | 45%N :: l' => Z.opp <$> Digits 10 l'
  | _ => Digits 10 l
  end.

(** ExponentPart, optional: nothing, or [e] or [E] and a SignedInteger. *)
Definition ExponentPart (l : list N) : option Z :=
  match l with
  | [] => Some 0
  | 101%N :: l' | 69%N :: l' => SignedInteger l'
  | _ => None
  end.

(** StrUnsignedDecimalLiteral: [Infinity], digits with an optional
    fraction, or a fraction alone, each with an optional exponent. The dot
    needs a digit on one side at least. *)
Definition StrUnsignedDecimalLiteral (negative : bool) (l : list N)
  : option t :=
  if bool_decide (l = Str.bytes "Infinity") then Some (Infinity negative)
  else
    let '(whole, rest) := leading_digits l in
    match rest with
    | 46%N :: rest' =>
        let '(fraction, rest'') := leading_digits rest' in
        match (whole ++ fraction)%list with
        | [] => None
        | _ :: _ =>
            match digits 10 0 (whole ++ fraction)%list, ExponentPart rest'' with
            | Some m, Some e =>
                Some (Decimal negative m (e - Z.of_nat (length fraction)))
            | _, _ => None
            end
        end
    | _ =>
        match Digits 10 whole, ExponentPart rest with
        | Some m, Some e => Some (Decimal negative m e)
        | _, _ => None
        end
    end.

(** NonDecimalIntegerLiteral: [0x], [0b] or [0o] in either case and digits
    of that radix; it takes no sign. *)
Definition NonDecimalIntegerLiteral (l : list N) : option t :=
  match l with
  | 48%N :: p :: l' =>
      let radix :=
        if ((p =? 120) || (p =? 88))%N then Some 16
        else if ((p =? 98) || (p =? 66))%N then Some 2
        else if ((p =? 111) || (p =? 79))%N then Some 8
        else None in
      match radix with
      | Some r => (fun m => Decimal false m 0) <$> Digits r l'
      | None => None
      end
  | _ => None
  end.

(** StrNumericLiteral. *)
Definition StrNumericLiteral (l : list N) : option t :=
  match NonDecimalIntegerLiteral l with
  | Some lit => Some lit
  | None =>
      match l with
      | 43%N :: l' => StrUnsignedDecimalLiteral false l'
      | 45%N :: l' => StrUnsignedDecimalLiteral true l'
      | _ => StrUnsignedDecimalLiteral false l
      end
  end.

(** The value of the literal when it is an integer. *)
Definition integer (lit : t) : option Z :=
  match lit with
  | Infinity _ => None
  | Decimal negative m e =>
      let signed (z : Z) := if negative then - z else z in
      if m =? 0 then Some 0
      else if 0 <=? e then Some (signed (m * 10 ^ e))
      else if m mod 10 ^ (- e) =? 0 then Some (signed (m / 10 ^ (- e)))
      else None
  end.

End Literal.

(** StringNumericLiteral: white space and line terminators around the
    literal are dropped, and the empty string counts as 0. [None] when the
    string is no numeric literal. *)
Definition StringNumericLiteral (s : string) : option Literal.t :=
  match Str.trimEnd (Str.trimStart (Str.bytes s)) with
  | [] => Some (Literal.Decimal false 0 0)
  | l => Literal.StrNumericLiteral l
  end.

(** The integers every one of which is a double. *)
Definition safe_integer (z : Z) : bool := Z.abs z <=? 2 ^ 53.

(** [StringToNumber]: a string that is no numeric literal is [NaN]; a
    literal is the number it denotes. The result is [None] where that
    number is one [num] does not hold: a fraction, an infinity, or an
    integer beyond 2^53, which a double may round. *)
Definition StringToNumber (s : string) : option num :=
  match StringNumericLiteral s with
  | None => Some NaN
  | Some lit =>
      match Literal.integer lit with
      | Some z => if safe_integer z then Some (Int z) else None
      | None => None
      end
  end.

Definition NumberToString (n : num) : string :=
  match n with
  | Int z => pretty z
  | NaN => "NaN"
  end.

(** [Array.prototype.join]: [undefined] and [null] elements print as the
    empty string. *)
Definition join_with (sep : string) (elt : value -> string)
  : list value -> string :=
  fix go (l : list value) : string :=
    match l with
    | [] => ""
    | [x] => elt x
    | x :: (_ :: _) as r => elt x +:+ sep +:+ go r
    end.

Fixpoint ToString (v : value) : string :=
  match v with
  | VUndef => "undefined"
  | VNull => "null"
  | VBool true => "true"
  | VBool false => "false"
  | VNum n => NumberToString n
  | VStr s => s
  | VArr l =>
      join_with ","
        (fun x => match x with VUndef | VNull => "" | _ => ToString x end) l
  | VObj _ => "[object Object]"
  end.

Definition elt_string (x : value) : string :=
  match x with VUndef | VNull => "" | _ => ToString x end.

Definition join (sep : string) (l : list value) : string :=
  join_with sep elt_string l.

(** [ToPrimitive]: arrays and plain objects go through [toString]. *)
Definition ToPrimitive (v : value) : value :=
  match v with
  | VArr _ | VObj _ => VStr (ToString v)
  | _ => v
  end.

(** [ToNumber]. On a string whose number [num] does not hold, which is
    outside the model, the result is set to [NaN]. *)
Definition ToNumber (v : value) : num :=
  match ToPrimitive v with
  | VUndef => NaN
  | VNull => Int 0
  | VBool b => Int (if b then 1 else 0)
  | VNum n => n
  | VStr s => default NaN (StringToNumber s)
  | VArr _ | VObj _ => NaN
  end.


(** [ToBoolean]. *)
Definition truthy (v : value) : bool :=
  match v with
  | VUndef | VNull => false
  | VBool b => b
  | VNum (Int z) => negb (z =? 0)
  | VNum NaN => false
  | VStr s => negb (String.eqb s "")
  | VArr _ | VObj _ => true
  end.

(** [a || b] and [a && b]. *)
Definition js_or (a b : value) : value := if truthy a then a else b.
Definition js_and (a b : value) : value := if truthy a then b else a.

Definition num_add (a b : num) : num :=
  match a, b with
  | Int x, Int y => Int (x + y)
  | _, _ => NaN
  end.

Definition is_string (v : value) : bool :=
  match v with VStr _ => true | _ => false end.

(** [a + b]: concatenation as soon as one primitive is a string. *)
Definition js_add (a b : value) : value :=
  let pa := ToPrimitive a in
  let pb := ToPrimitive b in
  if is_string pa || is_string pb then VStr (ToString pa +:+ ToString pb)
  else VNum (num_add (ToNumber pa) (ToNumber pb)).

(** [a < b]. *)
Definition js_lt (a b : value) : bool :=
  match ToPrimitive a, ToPrimitive b with
  | VStr s, VStr t => Str.lt (Str.bytes s) (Str.bytes t)
  | pa, pb =>
      match ToNumber pa, ToNumber pb with
      | Int x, Int y => x <? y
      | _, _ => false
      end
  end.

(** [a === b] on values of two different products. *)
Definition strict_eq (a b : value) : bool :=
  match a, b with
  | VUndef, VUndef => true
  | VNull, VNull => true
  | VBool x, VBool y => Bool.eqb x y
  | VNum (Int x), VNum (Int y) => x =? y
  | VStr s, VStr t => String.eqb s t
  | _, _ => false
  end.

(** SameValueZero, the comparison of [Array.prototype.includes]. *)
Definition same_value_zero (a b : value) : bool :=
  match a, b with
  | VNum NaN, VNum NaN => true
  | _, _ => strict_eq a b
  end.

Definition isNaN (n : num) : bool :=
  match n with NaN => true | Int _ => false end.

(** ** Exceptions and the methods that may raise them *)

Inductive exn :=
| TypeError (what : string).

(** [recv.includes(arg)]: defined on arrays (SameValueZero on the elements)
    and on strings (substring search for [ToString arg]); on every other
    receiver [includes] is not a function. *)
Definition js_includes (recv arg : value) : exn + bool :=
  match recv with
  | VArr l => inr (existsb (same_value_zero arg) l)
  | VStr s => inr (Str.includes s (ToString arg))
  | _ => inl (TypeError "includes is not a function")
  end.

(** [recv.join(sep)]: only arrays have [join]. *)
Definition js_join (recv : value) (sep : string) : exn + value :=
  match recv with
  | VArr l => inr (VStr (join sep l))
  | _ => inl (TypeError "join is not a function")
  end.

(** [recv?.join(sep)]: the optional chain stops on [undefined] and [null]
    only; on any other receiver the call is made. *)
Definition js_opt_join (recv : value) (sep : string) : exn + value :=
  match recv with
  | VUndef | VNull => inr VUndef
  | _ => js_join recv sep
  end.

(** ** Types *)

Inductive Category :=
| CPU | Motherboard | GPU | RAM | Storage | PSU | Case | Cooler.

Definition CATEGORIES : list Category :=
  [CPU; Motherboard; GPU; RAM; Storage; PSU; Case; Cooler].

#[global] Instance Category_eq_dec : EqDecision Category.
Proof. solve_decision. Defined.

Definition Category_index (c : Category) : nat :=
  match c with
  | CPU => 0 | Motherboard => 1 | GPU => 2 | RAM => 3
  | Storage => 4 | PSU => 5 | Case => 6 | Cooler => 7
  end%nat.

Definition Category_of_index (n : nat) : Category :=
  match n with
  | 0 => CPU | 1 => Motherboard | 2 => GPU | 3 => RAM
  | 4 => Storage | 5 => PSU | 6 => Case | _ => Cooler
  end%nat.

#[global] Program Instance Category_countable : Countable Category :=
  inj_countable' Category_index Category_of_index _.
Next Obligation. by intros []. Qed.

(** The category as the string the source writes. *)
Definition Category_name (c : Category) : string :=
  match c with
  | CPU => "CPU" | Motherboard => "Motherboard" | GPU => "GPU" | RAM => "RAM"
  | Storage => "Storage" | PSU => "PSU" | Case => "Case" | Cooler => "Cooler"
  end.

Record Product := {
  id : string;
  name : string;
  category : Category;
  price : num;
  stock : num;
  attributes : gmap string value;
}.

(** [p.attributes.k]: a missing key reads as [undefined]. *)
Definition attr (p : Product) (k : string) : value :=
  default VUndef (attributes p !! k).

(** [parts[c]?.attributes?.k]. *)
Definition opt_attr (p : option Product) (k : string) : value :=
  match p with
  | Some p => attr p k
  | None => VUndef
  end.

(** [Partial<Record<Category, Product>>]: at most one product per category,
    held by value. *)
Abbreviation Selection := (gmap Category Product).

Inductive Level := ok | warn | error.

#[global] Instance Level_eq_dec : EqDecision Level.
Proof. solve_decision. Defined.

Module Note.
Record t := { level : Level; msg : string }.
End Note.

Module Report.
Record t := { level : Level; notes : list Note.t }.
End Report.

(** ** Compatibility engine *)

Definition estimateWattage (parts : Selection) : value :=
  let cpu := js_or (opt_attr (parts !! CPU) "tdp") (VNum (Int 0)) in
  let gpu := js_or (opt_attr (parts !! GPU) "tdp") (VNum (Int 0)) in
  (* 100W headroom for other parts *)
  js_add (js_add cpu gpu) (VNum (Int 100)).

(** The body of [checkCompatibility] runs with the array [notes] as its
    state and may be cut short by an exception. *)
Definition M (A : Type) : Type := list Note.t -> exn + (A * list Note.t).

#[global] Instance M_ret : MRet M := fun A a ns => inr (a, ns).

#[global] Instance M_bind : MBind M := fun A B f m ns =>
  match m ns with
  | inl e => inl e
  | inr (a, ns') => f a ns'
  end.

(** [notes.push(n)]. *)
Definition push (n : Note.t) : M unit := fun ns => inr (tt, (ns ++ [n])%list).

(** An expression that may throw, evaluated inside the body. *)
Definition eval {A} (r : exn + A) : M A := fun ns =>
  match r with
  | inl e => inl e
  | inr a => inr (a, ns)
  end.

Definition get_notes : M (list Note.t) := fun ns => inr (ns, ns).

Definition note (l : Level) (m : string) : Note.t :=
  {| Note.level := l; Note.msg := m |}.

Definition check_cpu_mb (cpu mb : option Product) : M unit :=
  match cpu, mb with
  | Some cpu, Some mb =>
      if negb (strict_eq (attr cpu "socket") (attr mb "socket")) then
        push (note error
          ("CPU socket (" +:+ ToString (attr cpu "socket") +:+
           ") ไม่ตรงกับเมนบอร์ด (" +:+ ToString (attr mb "socket") +:+ ")"))
      else push (note ok "CPU ✔ เมนบอร์ด ✔ (ซ็อกเก็ตตรงกัน)")
  | _, _ => mret tt
  end.

Definition check_ram_mb (ram mb : option Product) : M unit :=
  match ram, mb with
  | Some ram, Some mb =>
      if negb (strict_eq (attr ram "type") (attr mb "ramType")) then
        push (note error
          ("RAM (" +:+ ToString (attr ram "type") +:+
           ") ไม่ตรงกับเมนบอร์ด (" +:+ ToString (attr mb "ramType") +:+ ")"))
      else push (note ok "RAM ✔ เมนบอร์ด ✔ (ชนิดแรมตรงกัน)")
  | _, _ => mret tt
  end.

Definition check_gpu_mb (gpu mb : option Product) : M unit :=
  match gpu, mb with
  | Some gpu, Some mb =>
      if negb (truthy (attr mb "pcieSlots")) then
        push (note error "เมนบอร์ดนี้ไม่มีสล็อต PCIe สำหรับการ์ดจอ")
      else push (note ok "GPU ✔ เมนบอร์ด ✔ (มีสล็อต PCIe)")
  | _, _ => mret tt
  end.

Definition check_case_mb (pcCase mb : option Product) : M unit :=
  match pcCase, mb with
  | Some pcCase, Some mb =>
      isOk ← eval (js_includes
                     (js_or (attr pcCase "formFactorSupport") (VArr []))
                     (attr mb "formFactor"));
      if negb isOk then
        joined ← eval (js_opt_join (attr pcCase "formFactorSupport") ", ");
        push (note error
          ("เคสรองรับ " +:+ ToString (js_or joined (VStr "-")) +:+
           " ไม่ตรงกับเมนบอร์ด (" +:+ ToString (attr mb "formFactor") +:+ ")"))
      else push (note ok "เคส ✔ เมนบอร์ด ✔ (ขนาดตรงกัน)")
  | _, _ => mret tt
  end.

Definition check_cooler_cpu (cooler cpu : option Product) : M unit :=
  match cooler, cpu with
  | Some cooler, Some cpu =>
      isOk ← eval (js_includes
                     (js_or (attr cooler "socketSupport") (VArr []))
                     (attr cpu "socket"));
      if negb isOk then
        push (note error
          ("ชุดระบายความร้อนไม่รองรับซ็อกเก็ต CPU (" +:+
           ToString (attr cpu "socket") +:+ ")"))
      else push (note ok "คูลเลอร์ ✔ CPU ✔ (รองรับซ็อกเก็ต)")
  | _, _ => mret tt
  end.

Definition check_storage_mb (storage mb : option Product) : M unit :=
  match storage, mb with
  | Some storage, Some mb =>
      if truthy (js_and (attr storage "interface") (attr mb "storage")) then
        isOk ← eval (js_includes (attr mb "storage")
                       (attr storage "interface"));
        if negb isOk then
          joined ← eval (js_join (js_or (attr mb "storage") (VArr [])) ", ");
          push (note error
            ("สตอเรจ (" +:+ ToString (attr storage "interface") +:+
             ") ไม่ตรงกับพอร์ตบนเมนบอร์ด (" +:+ ToString joined +:+ ")"))
        else push (note ok "สตอเรจ ✔ เมนบอร์ด ✔ (อินเทอร์เฟซตรงกัน)")
      else mret tt
  | _, _ => mret tt
  end.

Definition check_psu (parts : Selection) (psu : option Product) : M unit :=
  match psu with
  | Some psu =>
      let need := estimateWattage parts in
      let has := js_or (attr psu "wattage") (VNum (Int 0)) in
      if js_lt has need then
        push (note warn
          ("กำลังไฟ PSU " +:+ ToString has +:+
           "W อาจไม่พอ ต้องการอย่างน้อย ~" +:+ ToString need +:+ "W"))
      else
        push (note ok ("PSU เพียงพอ (ต้องการ ~" +:+ ToString need +:+ "W)"))
  | None => mret tt
  end.

Definition has_level (l : Level) (ns : list Note.t) : bool :=
  existsb (fun n => bool_decide (Note.level n = l)) ns.

(** [notes.some(error) ? "error" : notes.some(warn) ? "warn" : "ok"]. *)
Definition overall (ns : list Note.t) : Level :=
  if has_level error ns then error
  else if has_level warn ns then warn
  else ok.

Definition checkCompatibility_body (parts : Selection) : M Report.t :=
  let cpu := parts !! CPU in
  let mb := parts !! Motherboard in
  let ram := parts !! RAM in
  let gpu := parts !! GPU in
  let psu := parts !! PSU in
  let cooler := parts !! Cooler in
  let pcCase := parts !! Case in
  let storage := parts !! Storage in
  check_cpu_mb cpu mb;;
  check_ram_mb ram mb;;
  check_gpu_mb gpu mb;;
  check_case_mb pcCase mb;;
  check_cooler_cpu cooler cpu;;
  check_storage_mb storage mb;;
  check_psu parts psu;;
  notes ← get_notes;
  mret {| Report.level := overall notes; Report.notes := notes |}.

(** [checkCompatibility(parts)]: the report, or the exception that escapes. *)
Definition checkCompatibility (parts : Selection) : exn + Report.t :=
  match checkCompatibility_body parts [] with
  | inl e => inl e
  | inr (r, _) => inr r
  end.

(** The notes one block of the body pushes, and the notes of a whole run in
    the order of the source. *)
Definition pushed {A} (m : M A) : list Note.t :=
  match m [] with
  | inr (_, ns) => ns
  | inl _ => []
  end.

Definition returns {A} (m : M A) : bool :=
  match m [] with
  | inr _ => true
  | inl _ => false
  end.

Definition notes_cpu_mb (parts : Selection) : list Note.t :=
  pushed (check_cpu_mb (parts !! CPU) (parts !! Motherboard)).
Definition notes_ram_mb (parts : Selection) : list Note.t :=
  pushed (check_ram_mb (parts !! RAM) (parts !! Motherboard)).
Definition notes_gpu_mb (parts : Selection) : list Note.t :=
  pushed (check_gpu_mb (parts !! GPU) (parts !! Motherboard)).
Definition notes_case_mb (parts : Selection) : list Note.t :=
  pushed (check_case_mb (parts !! Case) (parts !! Motherboard)).
Definition notes_cooler_cpu (parts : Selection) : list Note.t :=
  pushed (check_cooler_cpu (parts !! Cooler) (parts !! CPU)).
Definition notes_storage_mb (parts : Selection) : list Note.t :=
  pushed (check_storage_mb (parts !! Storage) (parts !! Motherboard)).
Definition notes_psu (parts : Selection) : list Note.t :=
  pushed (check_psu parts (parts !! PSU)).

Definition all_notes (parts : Selection) : list Note.t :=
  (notes_cpu_mb parts ++ notes_ram_mb parts ++ notes_gpu_mb parts ++
   notes_case_mb parts ++ notes_cooler_cpu parts ++ notes_storage_mb parts ++
   notes_psu parts)%list.

(** The three attributes the engine treats as lists are lists, or missing. *)
Definition list_or_absent (v : value) : bool :=
  match v with
  | VUndef | VNull | VArr _ => true
  | _ => false
  end.

Definition lists_well_typed (parts : Selection) : bool :=
  list_or_absent (opt_attr (parts !! Case) "formFactorSupport") &&
  list_or_absent (opt_attr (parts !! Cooler) "socketSupport") &&
  list_or_absent (opt_attr (parts !! Motherboard) "storage").

(** A computation that only ever appends to [notes], and whose outcome
    does not depend on what [notes] already holds. *)
Definition appends {A} (m : M A) : Prop :=
  forall ns,
    m ns = match m [] with
           | inl e => inl e
           | inr (a, seg) => inr (a, (ns ++ seg)%list)
           end.

(** No block of the body throws. *)
Definition all_return (parts : Selection) : bool :=
  returns (check_cpu_mb (parts !! CPU) (parts !! Motherboard)) &&
  returns (check_ram_mb (parts !! RAM) (parts !! Motherboard)) &&
  returns (check_gpu_mb (parts !! GPU) (parts !! Motherboard)) &&
  returns (check_case_mb (parts !! Case) (parts !! Motherboard)) &&
  returns (check_cooler_cpu (parts !! Cooler) (parts !! CPU)) &&
  returns (check_storage_mb (parts !! Storage) (parts !! Motherboard)) &&
  returns (check_psu parts (parts !! PSU)).

(** The report of a run in which no block throws. *)
Definition report_of (parts : Selection) : Report.t :=
  {| Report.level := overall (all_notes parts);
     Report.notes := all_notes parts |}.

(** A [tdp] or [wattage] that is a number, or missing. *)
Definition numeric_or_absent (v : value) : bool :=
  match v with
  | VUndef | VNum (Int _) => true
  | _ => false
  end.

(** The number an attribute holds, 0 when it is missing. *)
Definition number_or_zero (v : value) : Z :=
  match v with
  | VNum (Int z) => z
  | _ => 0
  end.

(** ** Excel import *)

Definition is_alnum (c : N) : bool :=
  ((97 <=? c) && (c <=? 122) || (48 <=? c) && (c <=? 57))%N.

(** [.replace(/\\s+/g, "")] as the source spells it: in a regular
    expression literal [\\] is an escaped backslash, so the pattern is one
    backslash followed by one or more letters [s]. Every such run is
    deleted; [skipping] is true while the letters [s] of a match go by. *)
Fixpoint strip_backslash_s (skipping : bool) (l : list N) : list N :=
  match l with
  | [] => []
  | c :: r =>
      if skipping && (c =? 115)%N then strip_backslash_s true r
      else
        match c, r with
        | 92%N, 115%N :: r' => strip_backslash_s true r'
        | _, _ => c :: strip_backslash_s false r
        end
  end.

(** [s.toLowerCase().replace(/\\s+/g, "").replace(/[^a-z0-9]/g, "")]. *)
Definition normalizeHeader (s : string) : string :=
  Str.of_bytes
    (List.filter is_alnum
       (strip_backslash_s false (Str.lower (Str.bytes s)))).

(** A row of [sheet_to_json]: the cells under their headers, in key order. *)
Abbreviation Row := (list (string * value)).

(** [keys.forEach(k => (map[normalizeHeader(k)] = row[k]))]. *)
Definition headerMap (row : Row) : gmap string value :=
  fold_left (fun m kv => <[normalizeHeader kv.1 := kv.2]> m) row ∅.

(** [map[k]]. *)
Definition get (m : gmap string value) (k : string) : value :=
  default VUndef (m !! k).

(** [v + ""], always a string. *)
Definition js_concat (v : value) (s : string) : string :=
  ToString (ToPrimitive v) +:+ s.

Definition resolve_category (m : gmap string value) : Category :=
  let rawCategory :=
    js_concat
      (js_or (js_or (get m "category") (get m "หมวดหมู่")) (get m "type")) "" in
  let wanted := if String.eqb rawCategory "" then "" else rawCategory in
  default CPU
    (List.find
       (fun c => String.eqb (Str.toLowerCase (Category_name c))
                            (Str.toLowerCase wanted))
       CATEGORIES).

Definition resolve_name (m : gmap string value) : string :=
  js_concat
    (js_or (js_or (js_or (get m "name") (get m "สินค้า")) (get m "product"))
       (VStr "Unnamed")) "".

Definition resolve_price (m : gmap string value) : num :=
  ToNumber (js_or (js_or (get m "price") (get m "ราคา")) (VNum (Int 0))).

Definition resolve_stock (m : gmap string value) : num :=
  ToNumber
    (js_or (js_or (js_or (get m "stock") (get m "คงเหลือ")) (get m "จำนวน"))
       (VNum (Int 0))).

(** Known attribute aliases. *)
Definition aliasPairs : list (string * list string) :=
  [ ("socket", ["socket"; "ซ็อกเก็ต"]);
    ("tdp", ["tdp"]);
    ("ramType", ["ramtype"; "แรม"; "ram"]);
    ("formFactor", ["formfactor"; "ขนาด"]);
    ("formFactorSupport", ["formfactorsupport"; "รองรับเมนบอร์ด"]);
    ("pcieSlots", ["pcieslots"]);
    ("interface", ["interface"; "อินเทอร์เฟซ"]);
    ("storage", ["storage"; "พอร์ตเก็บข้อมูล"]);
    ("wattage", ["wattage"; "กำลังไฟ"; "w"]);
    ("sizeGB", ["sizegb"; "ขนาดgb"; "ความจุ"]);
    ("socketSupport", ["socketsupport"; "รองรับซ็อกเก็ต"]) ].

(** [v !== undefined && v !== ""]. *)
Definition filled (v : value) : bool :=
  negb (strict_eq v VUndef) && negb (strict_eq v (VStr "")).

(** The inner loop: the cell of the first alias that is filled. *)
Definition first_alias (m : gmap string value) (aliases : list string)
  : option value :=
  List.find filled ((fun a => get m (normalizeHeader a)) <$> aliases).

(** Lists like [ATX,mATX,ITX] are split; other cells become numbers when
    they look like one. *)
Definition coerce_cell (v : value) : value :=
  let scalar := if isNaN (ToNumber v) then v else VNum (ToNumber v) in
  match v with
  | VStr s =>
      if Str.includes s "," then
        VArr ((fun piece => VStr (Str.trim piece)) <$> Str.split_comma s)
      else scalar
  | _ => scalar
  end.

Definition aliasAttributes (m : gmap string value) : gmap string value :=
  fold_left
    (fun attributes ka =>
       match first_alias m ka.2 with
       | Some v => <[ka.1 := coerce_cell v]> attributes
       | None => attributes
       end)
    aliasPairs ∅.

Module Utf8.

Definition is_continuation (c : N) : bool := ((128 <=? c) && (c <? 192))%N.

(** The characters of a string, each with its continuation bytes;
    [cur] holds the bytes of the character being read, last byte first. *)
Fixpoint chars (cur : list N) (l : list N) : list (list N) :=
  match l with
  | [] => match cur with [] => [] | _ :: _ => [rev cur] end
  | c :: r =>
      if is_continuation c then chars (c :: cur) r
      else match cur with
           | [] => chars [c] r
           | _ :: _ => rev cur :: chars [c] r
           end
  end.

End Utf8.

(** The own enumerable properties [Object.assign] copies from a source:
    the properties of an object, the elements of an array under their
    indices, the characters of a string under theirs (one per code point
    here), and none for the other primitives. *)
Definition own_props (source : value) : list (string * value) :=
  match source with
  | VObj props => props
  | VArr l => imap (fun i x => (pretty i, x)) l
  | VStr s =>
      imap (fun i c => (pretty i, VStr (Str.of_bytes c)))
        (Utf8.chars [] (Str.bytes s))
  | _ => []
  end.

(** [Object.assign(target, source)]. *)
Definition Object_assign (target : gmap string value) (source : value)
  : gmap string value :=
  fold_left (fun t kv => <[kv.1 := kv.2]> t) (own_props source) target.

Section Rows.

(** [JSON.parse] belongs to the platform: [Some v] for the value it
    returns, [None] when it throws a [SyntaxError]. *)
Variable JSON_parse : string -> option value.

(** If an [attributes] JSON/text column exists, merge it; the [catch]
    block is empty. *)
Definition merge_attributes (attributes : gmap string value)
    (attrRaw : value) : gmap string value :=
  if truthy attrRaw then
    let parsed :=
      match attrRaw with
      | VStr s => JSON_parse s
      | _ => Some attrRaw
      end in
    match parsed with
    | Some extra => Object_assign attributes extra
    | None => attributes
    end
  else attributes.

(** One iteration of [for (const row of json)], with the fresh [uid()]. *)
Definition rowToProduct (uid : string) (row : Row) : Product :=
  let map := headerMap row in
  {| id := uid;
     name := resolve_name map;
     category := resolve_category map;
     price := resolve_price map;
     stock := resolve_stock map;
     attributes :=
       merge_attributes (aliasAttributes map) (get map "attributes") |}.

(** The products [parseWorkbookToProducts] resolves to, from the rows of the
    first sheet; [uid i] is the identifier drawn for row [i]. *)
Definition productsOfRows (uid : nat -> string) (json : list Row)
  : list Product :=
  imap (fun i row => rowToProduct (uid i) row) json.

End Rows.

(** Strings made of the characters [normalizeHeader] keeps. *)
Definition alnum_only (s : string) : bool :=
  forallb is_alnum (Str.bytes s).


(** [result] is [base] with the properties [props] written over it. *)
Definition overwritten (props : list (string * value))
    (base result : gmap string value) : Prop :=
  result = list_to_map (reverse props) ∪ base /\
  (NoDup props.*1 ->
   forall k v, (k, v) ∈ props -> result !! k = Some v) /\
  (forall k, k ∉ props.*1 -> result !! k = base !! k).

(** ** Catalog and builder state *)

(** The two [useLocalStorage] cells of [App]. *)
Record AppState := {
  inventory : list Product;
  build : Selection;
}.

(** [setInventory(prev => prev.filter(p => p.id !== id))]. *)
Definition deleteProduct (i : string) (st : AppState) : AppState :=
  {| inventory :=
       List.filter (fun p => negb (String.eqb (id p) i)) (inventory st);
     build := build st |}.

(** [setBuild(prev => ({ ...prev, [cat]: product || undefined }))]: a key
    set to [undefined] reads like a missing key. *)
Definition selectPart (cat : Category) (product : option Product)
    (st : AppState) : AppState :=
  {| inventory := inventory st;
     build :=
       match product with
       | Some p => <[cat := p]> (build st)
       | None => delete cat (build st)
       end |}.

(** ** Demo data *)

Definition product (i n : string) (c : Category) (p s : Z)
    (attrs : list (string * value)) : Product :=
  {| id := i; name := n; category := c; price := Int p; stock := Int s;
     attributes := list_to_map attrs |}.

Definition str (s : string) : value := VStr s.
Definition int (z : Z) : value := VNum (Int z).
Definition strs (l : list string) : value := VArr (VStr <$> l).

(** [DEMO_DATA], with [uid i] the identifier drawn for entry [i]. *)
Definition DEMO_DATA (uid : nat -> string) : list Product :=
  [ product (uid 0%nat) "AMD Ryzen 5 7600" CPU 7490 8
      [("socket", str "AM5"); ("tdp", int 65)];
    product (uid 1%nat) "Intel Core i5-13400F" CPU 6990 12
      [("socket", str "LGA1700"); ("tdp", int 148)];
    product (uid 2%nat) "ASUS TUF B650-PLUS" Motherboard 7290 6
      [("socket", str "AM5"); ("ramType", str "DDR5");
       ("formFactor", str "ATX"); ("pcieSlots", int 2);
       ("storage", strs ["M.2 NVMe"; "SATA"])];
    product (uid 3%nat) "MSI PRO B760M-A" Motherboard 4990 9
      [("socket", str "LGA1700"); ("ramType", str "DDR5");
       ("formFactor", str "mATX"); ("pcieSlots", int 2);
       ("storage", strs ["M.2 NVMe"; "SATA"])];
    product (uid 4%nat) "NVIDIA RTX 4070 SUPER" GPU 19990 4
      [("tdp", int 220); ("interface", str "PCIe")];
    product (uid 5%nat) "MSI GTX 1660 SUPER" GPU 6990 5
      [("tdp", int 125); ("interface", str "PCIe")];
    product (uid 6%nat) "Kingston Fury 16GB (2x8) 6000 DDR5" RAM 2190 15
      [("type", str "DDR5"); ("sizeGB", int 16)];
    product (uid 7%nat) "Corsair Vengeance 32GB (2x16) 3200 DDR4" RAM 2690 10
      [("type", str "DDR4"); ("sizeGB", int 32)];
    product (uid 8%nat) "WD Black SN770 1TB NVMe" Storage 2990 18
      [("interface", str "M.2 NVMe")];
    product (uid 9%nat) "Seagate Barracuda 2TB SATA" Storage 1690 8
      [("interface", str "SATA")];
    product (uid 10%nat) "Corsair RM750" PSU 3290 7 [("wattage", int 750)];
    product (uid 11%nat) "Antec NeoECO 550" PSU 1890 11 [("wattage", int 550)];
    product (uid 12%nat) "NZXT H5 Flow" Case 3590 3
      [("formFactorSupport", strs ["ATX"; "mATX"; "ITX"])];
    product (uid 13%nat) "Cooler Master NR200" Case 3290 5
      [("formFactorSupport", strs ["ITX"])];
    product (uid 14%nat) "DeepCool AK400" Cooler 1190 9
      [("socketSupport", strs ["AM5"; "LGA1700"])];
    product (uid 15%nat) "NZXT Kraken 240" Cooler 4490 4
      [("socketSupport", strs ["AM5"; "LGA1700"])] ].

Module Demo.

Definition uid (i : nat) : string := "demo" +:+ pretty i.

(** The state [App] starts from: the demo catalog and an empty build. *)
Definition start : AppState :=
  {| inventory := DEMO_DATA uid; build := ∅ |}.

(** Pick entry [i] of the catalog for category [cat], as [BuildPicker]
    does through [onSelect]. *)
Definition pick (cat : Category) (i : nat) (st : AppState) : AppState :=
  selectPart cat (inventory st !! i) st.

Definition ryzen : Product :=
  product (uid 0%nat) "AMD Ryzen 5 7600" CPU 7490 8
    [("socket", str "AM5"); ("tdp", int 65)].
Definition core_i5 : Product :=
  product (uid 1%nat) "Intel Core i5-13400F" CPU 6990 12
    [("socket", str "LGA1700"); ("tdp", int 148)].
Definition asus : Product :=
  product (uid 2%nat) "ASUS TUF B650-PLUS" Motherboard 7290 6
    [("socket", str "AM5"); ("ramType", str "DDR5");
     ("formFactor", str "ATX"); ("pcieSlots", int 2);
     ("storage", strs ["M.2 NVMe"; "SATA"])].
Definition rtx : Product :=
  product (uid 4%nat) "NVIDIA RTX 4070 SUPER" GPU 19990 4
    [("tdp", int 220); ("interface", str "PCIe")].
Definition antec : Product :=
  product (uid 11%nat) "Antec NeoECO 550" PSU 1890 11 [("wattage", int 550)].

(** Intel CPU on the AM5 board: the sockets differ. *)
Definition intel_on_am5 : Selection :=
  build (pick Motherboard 2 (pick CPU 1 start)).

(** Ryzen, AM5 board, RTX 4070 and the 550 W supply. *)
Definition amd_build : Selection :=
  build (pick PSU 11 (pick GPU 4 (pick Motherboard 2 (pick CPU 0 start)))).

(** A bare product with the given attributes, as the editor can save it. *)
Definition bare (c : Category) (attrs : list (string * value)) : Product :=
  product "bare" "" c 0 1 attrs.

End Demo.

(** ** Catalog operations of [App] *)

(** [l.findIndex(f)], [None] for -1. *)
Fixpoint findIndex {A} (f : A -> bool) (l : list A) : option nat :=
  match l with
  | [] => None
  | x :: l' => if f x then Some 0%nat else S <$> findIndex f l'
  end.

(** [saveProduct]: the first product with the same [id] is replaced in
    place; without one the product goes to the front. *)
Definition saveProduct (p : Product) (st : AppState) : AppState :=
  {| inventory :=
       match findIndex (fun x => String.eqb (id x) (id p)) (inventory st) with
       | Some idx => <[idx := p]> (inventory st)
       | None => p :: inventory st
       end;
     build := build st |}.

(** [handleImport]: [outcome] is what [parseWorkbookToProducts] settles to,
    the products or the error it rejects with; an error only raises a
    toast. *)
Definition handleImport (outcome : exn + list Product) (st : AppState)
  : AppState :=
  match outcome with
  | inr items =>
      {| inventory := (items ++ inventory st)%list; build := build st |}
  | inl _ => st
  end.

(** [clearAll]: [confirmed] is the answer to the [confirm] dialog. *)
Definition clearAll (uid : nat -> string) (confirmed : bool) (st : AppState)
  : AppState :=
  if negb confirmed then st
  else {| inventory := DEMO_DATA uid; build := ∅ |}.

(** ** Builder *)

(** [n > 0] and [n <= 0] on numbers; both are false on [NaN]. *)
Definition num_gt_zero (n : num) : bool :=
  match n with Int z => 0 <? z | NaN => false end.

Definition num_le_zero (n : num) : bool :=
  match n with Int z => z <=? 0 | NaN => false end.

(** [availableByCat]: every category starts with the empty list, then each
    product in stock is pushed on the list of its category. *)
Definition availableByCat (inventory : list Product)
  : Category -> list Product :=
  fold_left
    (fun map p =>
       if num_gt_zero (stock p) then
         fun c =>
           if decide (c = category p) then (map c ++ [p])%list else map c
       else map)
    inventory (fun _ => []).

(** [onValueChange] of the picker of [cat]:
    [onSelect(cat, availableByCat[cat].find(p => p.id === id) || null)]. *)
Definition onValueChange (cat : Category) (i : string) (st : AppState)
  : AppState :=
  selectPart cat
    (List.find (fun p => String.eqb (id p) i)
       (availableByCat (inventory st) cat))
    st.

(** [n || 0] on a number. *)
Definition num_or_zero (n : num) : num :=
  if truthy (VNum n) then n else Int 0.

(** [Object.values(selection).reduce((sum, p) => sum + (p?.price || 0), 0)];
    a slot that was cleared shows up as [undefined], here [None]. *)
Definition selectedTotal (values : list (option Product)) : num :=
  fold_left
    (fun sum p =>
       num_add sum
         match p with
         | Some p => num_or_zero (price p)
         | None => Int 0
         end)
    values (Int 0).

(** ** Summary *)

Module Summary.

(** [CATEGORIES.map(c => selection[c]).filter(Boolean)]. *)
Definition items (selection : Selection) : list Product :=
  omap (fun c => selection !! c) CATEGORIES.

(** [items.reduce((s, p) => s + p.price, 0)]. *)
Definition total (selection : Selection) : num :=
  fold_left (fun s p => num_add s (price p)) (items selection) (Int 0).

(** [items.filter(p => p.stock <= 0)]. *)
Definition outOfStock (selection : Selection) : list Product :=
  List.filter (fun p => num_le_zero (stock p)) (items selection).

End Summary.

(** ** The events of a session *)

(** What the handlers of [App] do to the two cells of state, one event at a
    time. *)
Inductive step : AppState -> AppState -> Prop :=
| step_save p st : step st (saveProduct p st)
| step_delete i st : step st (deleteProduct i st)
| step_import outcome st : step st (handleImport outcome st)
| step_clear uid confirmed st : step st (clearAll uid confirmed st)
| step_pick cat i st : step st (onValueChange cat i st)
| step_unpick cat st : step st (selectPart cat None st).

(** Every slot of the build holds a product of its own category that was
    in stock. *)
Definition build_sorted (st : AppState) : Prop :=
  forall c p,
    build st !! c = Some p ->
    category p = c /\ num_gt_zero (stock p) = true.

(** ** When the engine throws *)

Definition is_array (v : value) : bool :=
  match v with VArr _ => true | _ => false end.

Definition nullish (v : value) : bool :=
  match v with VUndef | VNull => true | _ => false end.

(** The case block: [formFactorSupport] is neither missing nor a list, and
    is not a string in which the board's form factor occurs. *)
Definition case_throws (support formFactor : value) : bool :=
  match support with
  | VUndef | VNull | VArr _ => false
  | VStr s =>
      negb (negb (String.eqb s "") && Str.includes s (ToString formFactor))
  | _ => true
  end.

(** The cooler block: [socketSupport] is truthy and has no [includes]. *)
Definition cooler_throws (support : value) : bool :=
  truthy support && negb (is_array support || is_string support).

(** The storage block: both attributes are truthy and [storage] has no
    [includes], or is a string in which the interface does not occur. *)
Definition storage_throws (interface storage : value) : bool :=
  truthy interface && truthy storage &&
  match storage with
  | VArr _ => false
  | VStr s => negb (Str.includes s (ToString interface))
  | _ => true
  end.

Definition throws_somewhere (parts : Selection) : bool :=
  match parts !! Case, parts !! Motherboard with
  | Some pcCase, Some mb =>
      case_throws (attr pcCase "formFactorSupport") (attr mb "formFactor")
  | _, _ => false
  end ||
  match parts !! Cooler, parts !! CPU with
  | Some cooler, Some _ => cooler_throws (attr cooler "socketSupport")
  | _, _ => false
  end ||
  match parts !! Storage, parts !! Motherboard with
  | Some storage, Some mb =>
      storage_throws (attr storage "interface") (attr mb "storage")
  | _, _ => false
  end.

(** A product reduced to what the engine reads of it. *)
Definition attributes_only (p : Product) : Product :=
  {| id := ""; name := ""; category := CPU; price := Int 0; stock := Int 0;
     attributes := attributes p |}.

(** The price of a product as an integer, [NaN] counting for 0, and the
    sum of these over a list. *)
Definition price_number (p : Product) : Z :=
  match price p with Int z => z | NaN => 0 end.

Definition sum_prices (l : list Product) : Z :=
  foldr (fun p acc => price_number p + acc) 0 l.

(** The magnitudes of the prices of a list, added up. While this is at
    most 2^53, every sum of some of these prices is an integer that a
    double holds exactly, so the additions of the source do not round. *)
Definition sum_magnitudes (l : list Product) : Z :=
  foldr (fun p acc => Z.abs (price_number p) + acc) 0 l.

(** The test [deleteProduct] and [saveProduct] apply to an [id]. *)
Definition other_id (i : string) (p : Product) : bool :=
  negb (String.eqb (id p) i).

(** What the picker of [cat] offers: in stock and of that category. *)
Definition on_offer (cat : Category) (p : Product) : bool :=
  num_gt_zero (stock p) && bool_decide (category p = cat).

(** The products among the values of the selection object, cleared slots
    left out. *)
Definition present (values : list (option Product)) : list Product :=
  omap (fun slot => slot) values.

(** The keys the import reads from the lookup table of a row: the ones it
    names outright and the normalized aliases of the attribute table. *)
Definition looked_up : list string :=
  (["category"; "type"; "name"; "product"; "price"; "stock"; "attributes"] ++
   (normalizeHeader <$> concat aliasPairs.*2))%list.
(** ** How the blocks compose *)

Section Appends.

Lemma appends_ret {A} (a : A) : appends (mret a).
Proof. intros ns. cbv [mret M_ret]. by rewrite app_nil_r. Qed.

Lemma appends_push n : appends (push n).
Proof. intros ns. reflexivity. Qed.

Lemma appends_eval {A} (r : exn + A) : appends (eval r).
Proof. intros ns. destruct r; cbn; [done | by rewrite app_nil_r]. Qed.

Lemma appends_bind {A B} (m : M A) (f : A -> M B) :
  appends m -> (forall a, appends (f a)) -> appends (m ≫= f).
Proof.
  intros Hm Hf ns. cbv [mbind M_bind]. rewrite (Hm ns).
  destruct (m []) as [e | [a seg]]; [done |].
  rewrite (Hf a (ns ++ seg)%list), (Hf a seg).
  destruct (f a []) as [e | [b seg']]; [done |].
  by rewrite app_assoc.
Qed.

Lemma appends_run {A} (m : M A) ns :
  appends m -> returns m = true ->
  exists a, m [] = inr (a, pushed m) /\ m ns = inr (a, (ns ++ pushed m)%list).
Proof.
  intros Hm Hr. rewrite (Hm ns). unfold returns, pushed in *.
  destruct (m []) as [e | [a seg]]; [done |]. by exists a.
Qed.

Lemma appends_throw {A} (m : M A) ns :
  appends m -> returns m = false -> exists e, m ns = inl e.
Proof.
  intros Hm Hr. rewrite (Hm ns). unfold returns in Hr.
  destruct (m []) as [e | [a seg]]; [by exists e | done].
Qed.

End Appends.

Ltac appends_block :=
  repeat first
    [ apply appends_ret | apply appends_push | apply appends_eval
    | apply appends_bind; [| intros ?]
    | match goal with
      | |- appends (match ?x with _ => _ end) => destruct x
      | |- appends (if ?b then _ else _) => destruct b
      | |- appends (let _ := _ in _) => cbv zeta
      end ].

Lemma appends_cpu_mb cpu mb : appends (check_cpu_mb cpu mb).
Proof. unfold check_cpu_mb. appends_block. Qed.

Lemma appends_ram_mb ram mb : appends (check_ram_mb ram mb).
Proof. unfold check_ram_mb. appends_block. Qed.

Lemma appends_gpu_mb gpu mb : appends (check_gpu_mb gpu mb).
Proof. unfold check_gpu_mb. appends_block. Qed.

Lemma appends_case_mb pcCase mb : appends (check_case_mb pcCase mb).
Proof. unfold check_case_mb. appends_block. Qed.

Lemma appends_cooler_cpu cooler cpu : appends (check_cooler_cpu cooler cpu).
Proof. unfold check_cooler_cpu. appends_block. Qed.

Lemma appends_storage_mb storage mb : appends (check_storage_mb storage mb).
Proof. unfold check_storage_mb. appends_block. Qed.

Lemma appends_psu parts psu : appends (check_psu parts psu).
Proof. unfold check_psu. appends_block. Qed.

Lemma seq_returns {B} (m : M unit) (k : M B) ns :
  appends m -> returns m = true ->
  (m ;; k) ns = k (ns ++ pushed m)%list.
Proof.
  intros Hm Hr. destruct (appends_run m ns Hm Hr) as ([] & _ & Hns).
  cbv [mbind M_bind]. by rewrite Hns.
Qed.

Lemma seq_throws {B} (m : M unit) (k : M B) ns :
  appends m -> returns m = false -> exists e, (m ;; k) ns = inl e.
Proof.
  intros Hm Hr. destruct (appends_throw m ns Hm Hr) as (e & Hns).
  exists e. cbv [mbind M_bind]. by rewrite Hns.
Qed.

(** A run in which no block throws returns the notes of the seven blocks in
    the order of the source, with the overall level computed from them. *)
Lemma checkCompatibility_returns parts :
  all_return parts = true -> checkCompatibility parts = inr (report_of parts).
Proof.
  unfold all_return. rewrite !andb_true_iff.
  intros [[[[[[H1 H2] H3] H4] H5] H6] H7].
  unfold checkCompatibility, checkCompatibility_body. cbv zeta.
  rewrite (seq_returns _ _ _ (appends_cpu_mb _ _) H1).
  rewrite (seq_returns _ _ _ (appends_ram_mb _ _) H2).
  rewrite (seq_returns _ _ _ (appends_gpu_mb _ _) H3).
  rewrite (seq_returns _ _ _ (appends_case_mb _ _) H4).
  rewrite (seq_returns _ _ _ (appends_cooler_cpu _ _) H5).
  rewrite (seq_returns _ _ _ (appends_storage_mb _ _) H6).
  rewrite (seq_returns _ _ _ (appends_psu _ _) H7).
  cbn. unfold report_of, all_notes, notes_cpu_mb, notes_ram_mb, notes_gpu_mb,
    notes_case_mb, notes_cooler_cpu, notes_storage_mb, notes_psu.
  by rewrite <- !app_assoc.
Qed.

(** As soon as one block throws, the whole call throws. *)
Lemma checkCompatibility_throws parts :
  all_return parts = false -> exists e, checkCompatibility parts = inl e.
Proof.
  unfold all_return, checkCompatibility, checkCompatibility_body. cbv zeta.
  intros H.
  destruct (returns (check_cpu_mb _ _)) eqn:H1; cycle 1.
  { destruct (seq_throws _ (check_ram_mb (parts !! RAM) (parts !! Motherboard);;
        check_gpu_mb (parts !! GPU) (parts !! Motherboard);;
        check_case_mb (parts !! Case) (parts !! Motherboard);;
        check_cooler_cpu (parts !! Cooler) (parts !! CPU);;
        check_storage_mb (parts !! Storage) (parts !! Motherboard);;
        check_psu parts (parts !! PSU);;
        notes ← get_notes;
        mret {| Report.level := overall notes; Report.notes := notes |})
        [] (appends_cpu_mb _ _) H1) as [e ->]. by exists e. }
  rewrite (seq_returns _ _ _ (appends_cpu_mb _ _) H1).
  destruct (returns (check_ram_mb _ _)) eqn:H2; cycle 1.
  { edestruct (seq_throws (B := Report.t)) as [e ->];
      [apply appends_ram_mb | exact H2 | by exists e]. }
  rewrite (seq_returns _ _ _ (appends_ram_mb _ _) H2).
  destruct (returns (check_gpu_mb _ _)) eqn:H3; cycle 1.
  { edestruct (seq_throws (B := Report.t)) as [e ->];
      [apply appends_gpu_mb | exact H3 | by exists e]. }
  rewrite (seq_returns _ _ _ (appends_gpu_mb _ _) H3).
  destruct (returns (check_case_mb _ _)) eqn:H4; cycle 1.
  { edestruct (seq_throws (B := Report.t)) as [e ->];
      [apply appends_case_mb | exact H4 | by exists e]. }
  rewrite (seq_returns _ _ _ (appends_case_mb _ _) H4).
  destruct (returns (check_cooler_cpu _ _)) eqn:H5; cycle 1.
  { edestruct (seq_throws (B := Report.t)) as [e ->];
      [apply appends_cooler_cpu | exact H5 | by exists e]. }
  rewrite (seq_returns _ _ _ (appends_cooler_cpu _ _) H5).
  destruct (returns (check_storage_mb _ _)) eqn:H6; cycle 1.
  { edestruct (seq_throws (B := Report.t)) as [e ->];
      [apply appends_storage_mb | exact H6 | by exists e]. }
  rewrite (seq_returns _ _ _ (appends_storage_mb _ _) H6).
  destruct (returns (check_psu _ _)) eqn:H7; [done |].
  edestruct (seq_throws (B := Report.t)) as [e ->];
    [apply appends_psu | exact H7 | by exists e].
Qed.

(** Whatever report comes back is the report of the seven blocks. *)
Lemma checkCompatibility_inr parts r :
  checkCompatibility parts = inr r -> r = report_of parts.
Proof.
  intros Hr. destruct (all_return parts) eqn:Hall.
  - rewrite (checkCompatibility_returns _ Hall) in Hr. congruence.
  - destruct (checkCompatibility_throws _ Hall) as [e He]. congruence.
Qed.

Lemma ToString_array l : ToString (VArr l) = join "," l.
Proof. reflexivity. Qed.

(** ** The blocks one by one *)

Lemma returns_cpu_mb cpu mb : returns (check_cpu_mb cpu mb) = true.
Proof.
  destruct cpu as [cpu |], mb as [mb |]; try reflexivity.
  unfold check_cpu_mb. by destruct (strict_eq _ _).
Qed.

Lemma returns_ram_mb ram mb : returns (check_ram_mb ram mb) = true.
Proof.
  destruct ram as [ram |], mb as [mb |]; try reflexivity.
  unfold check_ram_mb. by destruct (strict_eq _ _).
Qed.

Lemma returns_gpu_mb gpu mb : returns (check_gpu_mb gpu mb) = true.
Proof.
  destruct gpu as [gpu |], mb as [mb |]; try reflexivity.
  unfold check_gpu_mb. by destruct (truthy _).
Qed.

Lemma returns_psu parts psu : returns (check_psu parts psu) = true.
Proof.
  destruct psu as [psu |]; [| reflexivity].
  unfold check_psu. cbv zeta. by destruct (js_lt _ _).
Qed.

Lemma returns_case_mb pcCase mb :
  list_or_absent (opt_attr pcCase "formFactorSupport") = true ->
  returns (check_case_mb pcCase mb) = true.
Proof.
  destruct pcCase as [pcCase |], mb as [mb |]; try reflexivity.
  unfold check_case_mb. cbn [opt_attr].
  destruct (attr pcCase "formFactorSupport") as [| | | | | l |]; try done;
    intros _; cbn; try done.
  by destruct (existsb _ l).
Qed.

Lemma returns_cooler_cpu cooler cpu :
  list_or_absent (opt_attr cooler "socketSupport") = true ->
  returns (check_cooler_cpu cooler cpu) = true.
Proof.
  destruct cooler as [cooler |], cpu as [cpu |]; try reflexivity.
  unfold check_cooler_cpu. cbn [opt_attr].
  destruct (attr cooler "socketSupport") as [| | | | | l |]; try done;
    intros _; cbn; try done.
  by destruct (existsb _ l).
Qed.

Lemma returns_storage_mb storage mb :
  list_or_absent (opt_attr mb "storage") = true ->
  returns (check_storage_mb storage mb) = true.
Proof.
  destruct storage as [storage |], mb as [mb |]; try reflexivity.
  unfold check_storage_mb, js_and. cbn [opt_attr].
  destruct (attr mb "storage") as [| | | | | l |]; try done; intros _.
  - by destruct (truthy (attr storage "interface")) eqn:E; [| rewrite E].
  - by destruct (truthy (attr storage "interface")) eqn:E; [| rewrite E].
  - destruct (truthy (attr storage "interface")) eqn:E; [| by rewrite E].
    cbn. by destruct (existsb _ l).
Qed.

(** With the list attributes well typed no block throws, so the call
    returns its report. *)
Lemma lists_well_typed_all_return parts :
  lists_well_typed parts = true -> all_return parts = true.
Proof.
  unfold lists_well_typed, all_return. rewrite !andb_true_iff.
  intros [[Hcase Hcooler] Hmb].
  rewrite returns_cpu_mb, returns_ram_mb, returns_gpu_mb, returns_psu,
    (returns_case_mb _ _ Hcase), (returns_cooler_cpu _ _ Hcooler),
    (returns_storage_mb _ _ Hmb).
  done.
Qed.

Lemma checkCompatibility_well_typed parts :
  lists_well_typed parts = true ->
  checkCompatibility parts = inr (report_of parts).
Proof.
  intros H. by apply checkCompatibility_returns, lists_well_typed_all_return.
Qed.

Lemma strict_eq_strings s t : strict_eq (VStr s) (VStr t) = true <-> s = t.
Proof. cbn. apply String.eqb_eq. Qed.

(** C1. With a CPU and a motherboard selected, the socket block pushes
    exactly one note. Its level is [ok] when [cpu.attributes.socket ===
    mb.attributes.socket] and [error] otherwise; on two strings that is
    equality character by character, so case matters. Every report
    [checkCompatibility] returns starts with that note, followed by the
    notes of the other six blocks, and a report is returned whenever the
    list attributes are lists. *)
Theorem cpu_mb_socket_note (parts : Selection) (cpu mb : Product) :
  parts !! CPU = Some cpu ->
  parts !! Motherboard = Some mb ->
  exists n,
    notes_cpu_mb parts = [n] /\
    Note.level n =
      (if strict_eq (attr cpu "socket") (attr mb "socket") then ok else error) /\
    (forall s t,
        attr cpu "socket" = VStr s -> attr mb "socket" = VStr t ->
        (s = t -> Note.level n = ok) /\ (s <> t -> Note.level n = error)) /\
    (forall r,
        checkCompatibility parts = inr r ->
        Report.notes r =
          n :: (notes_ram_mb parts ++ notes_gpu_mb parts ++
                notes_case_mb parts ++ notes_cooler_cpu parts ++
                notes_storage_mb parts ++ notes_psu parts)%list) /\
    (lists_well_typed parts = true ->
     exists r, checkCompatibility parts = inr r).
Proof.
  intros Hcpu Hmb.
  assert (exists n, notes_cpu_mb parts = [n] /\
            Note.level n =
              (if strict_eq (attr cpu "socket") (attr mb "socket")
               then ok else error)) as (n & Hn & Hlevel).
  { unfold notes_cpu_mb. rewrite Hcpu, Hmb. unfold check_cpu_mb.
    destruct (strict_eq _ _); cbn; eauto. }
  exists n. split_and!; [done | done | | |].
  - intros s t Hs Ht. rewrite Hlevel, Hs, Ht.
    destruct (strict_eq (VStr s) (VStr t)) eqn:E.
    + apply strict_eq_strings in E. by split.
    + split; [| done]. intros ->.
      assert (strict_eq (VStr t) (VStr t) = true) by by apply strict_eq_strings.
      congruence.
  - intros r Hr. rewrite (checkCompatibility_inr _ _ Hr). cbn.
    unfold all_notes. by rewrite Hn.
  - intros Hwt. eexists. by apply checkCompatibility_well_typed.
Qed.

Lemma cpu_mb_socket_note_witness :
  exists n,
    notes_cpu_mb Demo.intel_on_am5 = [n] /\
    Note.level n =
      (if strict_eq (attr Demo.core_i5 "socket") (attr Demo.asus "socket")
       then ok else error) /\
    (forall s t,
        attr Demo.core_i5 "socket" = VStr s ->
        attr Demo.asus "socket" = VStr t ->
        (s = t -> Note.level n = ok) /\ (s <> t -> Note.level n = error)) /\
    (forall r,
        checkCompatibility Demo.intel_on_am5 = inr r ->
        Report.notes r =
          n :: (notes_ram_mb Demo.intel_on_am5 ++
                notes_gpu_mb Demo.intel_on_am5 ++
                notes_case_mb Demo.intel_on_am5 ++
                notes_cooler_cpu Demo.intel_on_am5 ++
                notes_storage_mb Demo.intel_on_am5 ++
                notes_psu Demo.intel_on_am5)%list) /\
    (lists_well_typed Demo.intel_on_am5 = true ->
     exists r, checkCompatibility Demo.intel_on_am5 = inr r).
Proof.
  apply (cpu_mb_socket_note Demo.intel_on_am5 Demo.core_i5 Demo.asus);
    vm_compute; reflexivity.
Defined.

Example intel_on_am5_report :
  checkCompatibility Demo.intel_on_am5 =
    inr {| Report.level := error;
           Report.notes :=
             [note error "CPU socket (LGA1700) ไม่ตรงกับเมนบอร์ด (AM5)"] |}.
Proof. vm_compute. reflexivity. Qed.

Example socket_case_matters :
  checkCompatibility
    (<[CPU := Demo.bare CPU [("socket", str "am5")]]>
       (<[Motherboard := Demo.bare Motherboard [("socket", str "AM5")]]> ∅)) =
    inr {| Report.level := error;
           Report.notes :=
             [note error "CPU socket (am5) ไม่ตรงกับเมนบอร์ด (AM5)"] |}.
Proof. vm_compute. reflexivity. Qed.

(** ** Overall level *)

Lemma has_level_spec l ns :
  has_level l ns = true <-> exists n, n ∈ ns /\ Note.level n = l.
Proof.
  unfold has_level. rewrite existsb_exists. split.
  - intros (n & Hin & Hl). exists n.
    by rewrite list_elem_of_In, <- (bool_decide_eq_true (Note.level n = l)).
  - intros (n & Hin & Hl). exists n.
    by rewrite <- list_elem_of_In, bool_decide_eq_true.
Qed.

Lemma overall_error ns :
  (exists n, n ∈ ns /\ Note.level n = error) -> overall ns = error.
Proof. intros H. apply has_level_spec in H. unfold overall. by rewrite H. Qed.

Lemma overall_warn ns :
  (forall n, n ∈ ns -> Note.level n <> error) ->
  (exists n, n ∈ ns /\ Note.level n = warn) ->
  overall ns = warn.
Proof.
  intros Hne Hw. apply has_level_spec in Hw. unfold overall. rewrite Hw.
  destruct (has_level error ns) eqn:He; [| done].
  apply has_level_spec in He as (n & Hin & Hl). by destruct (Hne n Hin).
Qed.

Lemma overall_ok ns :
  (forall n, n ∈ ns -> Note.level n = ok) -> overall ns = ok.
Proof.
  intros Hok. unfold overall.
  destruct (has_level error ns) eqn:He.
  { apply has_level_spec in He as (n & Hin & Hl).
    rewrite (Hok n Hin) in Hl. done. }
  destruct (has_level warn ns) eqn:Hw; [| done].
  apply has_level_spec in Hw as (n & Hin & Hl).
  rewrite (Hok n Hin) in Hl. done.
Qed.

(** C3. The level of a report is [error] if one of its notes is an error,
    otherwise [warn] if one of them is a warning, otherwise [ok]. The empty
    selection gives the empty list of notes at level [ok]; a selection whose
    notes are all [ok] gives the same level, and only the number of notes
    tells the two apart. A report is returned whenever the list attributes
    are lists. *)
Theorem overall_level_of_notes (parts : Selection) :
  (forall r,
      checkCompatibility parts = inr r ->
      ((exists n, n ∈ Report.notes r /\ Note.level n = error) ->
       Report.level r = error) /\
      ((forall n, n ∈ Report.notes r -> Note.level n <> error) ->
       (exists n, n ∈ Report.notes r /\ Note.level n = warn) ->
       Report.level r = warn) /\
      ((forall n, n ∈ Report.notes r -> Note.level n = ok) ->
       Report.level r = ok)) /\
  (lists_well_typed parts = true ->
   exists r, checkCompatibility parts = inr r) /\
  checkCompatibility ∅ = inr {| Report.level := ok; Report.notes := [] |} /\
  (exists full r,
      checkCompatibility full = inr r /\
      Report.level r = ok /\
      (forall n, n ∈ Report.notes r -> Note.level n = ok) /\
      Report.notes r <> []).
Proof.
  split_and!.
  - intros r Hr. rewrite (checkCompatibility_inr _ _ Hr). cbn.
    split_and!; [apply overall_error | apply overall_warn | apply overall_ok].
  - intros Hwt. eexists. by apply checkCompatibility_well_typed.
  - reflexivity.
  - exists Demo.amd_build. eexists. split; [vm_compute; reflexivity |].
    cbn. split_and!; [done | | done].
    intros n Hn. repeat (apply elem_of_cons in Hn as [-> | Hn]; [done |]).
    by apply elem_of_nil in Hn.
Qed.

Lemma overall_level_of_notes_witness :
  checkCompatibility Demo.intel_on_am5 =
    inr (report_of Demo.intel_on_am5) /\
  Report.level (report_of Demo.intel_on_am5) = error.
Proof.
  destruct (overall_level_of_notes Demo.intel_on_am5) as (Hlevel & _).
  assert (checkCompatibility Demo.intel_on_am5 =
            inr (report_of Demo.intel_on_am5)) as Hr
    by (vm_compute; reflexivity).
  split; [exact Hr |].
  apply (Hlevel _ Hr).
  exists (note error "CPU socket (LGA1700) ไม่ตรงกับเมนบอร์ด (AM5)").
  split; [| reflexivity].
  vm_compute. apply list_elem_of_here.
Defined.

(** ** Checks that are not performed *)

Lemma skip_cpu_mb cpu mb ns :
  cpu = None \/ mb = None -> check_cpu_mb cpu mb ns = inr (tt, ns).
Proof. intros [-> | ->]; [| destruct cpu]; reflexivity. Qed.

Lemma skip_ram_mb ram mb ns :
  ram = None \/ mb = None -> check_ram_mb ram mb ns = inr (tt, ns).
Proof. intros [-> | ->]; [| destruct ram]; reflexivity. Qed.

Lemma skip_gpu_mb gpu mb ns :
  gpu = None \/ mb = None -> check_gpu_mb gpu mb ns = inr (tt, ns).
Proof. intros [-> | ->]; [| destruct gpu]; reflexivity. Qed.

Lemma skip_case_mb pcCase mb ns :
  pcCase = None \/ mb = None -> check_case_mb pcCase mb ns = inr (tt, ns).
Proof. intros [-> | ->]; [| destruct pcCase]; reflexivity. Qed.

Lemma skip_cooler_cpu cooler cpu ns :
  cooler = None \/ cpu = None -> check_cooler_cpu cooler cpu ns = inr (tt, ns).
Proof. intros [-> | ->]; [| destruct cooler]; reflexivity. Qed.

Lemma skip_storage_mb storage mb ns :
  storage = None \/ mb = None ->
  check_storage_mb storage mb ns = inr (tt, ns).
Proof. intros [-> | ->]; [| destruct storage]; reflexivity. Qed.

Lemma skip_psu parts ns : check_psu parts None ns = inr (tt, ns).
Proof. reflexivity. Qed.

(** C4. A block whose category, or one of whose two categories, is not
    selected leaves [notes] as it found it and does not throw: it
    contributes nothing to the notes of the report, which are the notes of
    the seven blocks one after the other. *)
Theorem absent_side_no_note (parts : Selection) :
  (parts !! CPU = None \/ parts !! Motherboard = None ->
   (forall ns,
       check_cpu_mb (parts !! CPU) (parts !! Motherboard) ns = inr (tt, ns)) /\
   notes_cpu_mb parts = []) /\
  (parts !! RAM = None \/ parts !! Motherboard = None ->
   (forall ns,
       check_ram_mb (parts !! RAM) (parts !! Motherboard) ns = inr (tt, ns)) /\
   notes_ram_mb parts = []) /\
  (parts !! GPU = None \/ parts !! Motherboard = None ->
   (forall ns,
       check_gpu_mb (parts !! GPU) (parts !! Motherboard) ns = inr (tt, ns)) /\
   notes_gpu_mb parts = []) /\
  (parts !! Case = None \/ parts !! Motherboard = None ->
   (forall ns,
       check_case_mb (parts !! Case) (parts !! Motherboard) ns
       = inr (tt, ns)) /\
   notes_case_mb parts = []) /\
  (parts !! Cooler = None \/ parts !! CPU = None ->
   (forall ns,
       check_cooler_cpu (parts !! Cooler) (parts !! CPU) ns = inr (tt, ns)) /\
   notes_cooler_cpu parts = []) /\
  (parts !! Storage = None \/ parts !! Motherboard = None ->
   (forall ns,
       check_storage_mb (parts !! Storage) (parts !! Motherboard) ns
       = inr (tt, ns)) /\
   notes_storage_mb parts = []) /\
  (parts !! PSU = None ->
   (forall ns, check_psu parts (parts !! PSU) ns = inr (tt, ns)) /\
   notes_psu parts = []) /\
  (forall r,
      checkCompatibility parts = inr r ->
      Report.notes r =
        (notes_cpu_mb parts ++ notes_ram_mb parts ++ notes_gpu_mb parts ++
         notes_case_mb parts ++ notes_cooler_cpu parts ++
         notes_storage_mb parts ++ notes_psu parts)%list) /\
  (lists_well_typed parts = true ->
   exists r, checkCompatibility parts = inr r).
Proof.
  split_and!.
  - intros H. unfold notes_cpu_mb, pushed.
    split; [intros ns |]; by rewrite skip_cpu_mb.
  - intros H. unfold notes_ram_mb, pushed.
    split; [intros ns |]; by rewrite skip_ram_mb.
  - intros H. unfold notes_gpu_mb, pushed.
    split; [intros ns |]; by rewrite skip_gpu_mb.
  - intros H. unfold notes_case_mb, pushed.
    split; [intros ns |]; by rewrite skip_case_mb.
  - intros H. unfold notes_cooler_cpu, pushed.
    split; [intros ns |]; by rewrite skip_cooler_cpu.
  - intros H. unfold notes_storage_mb, pushed.
    split; [intros ns |]; by rewrite skip_storage_mb.
  - intros H. unfold notes_psu, pushed. rewrite H.
    split; [intros ns |]; by rewrite skip_psu.
  - intros r Hr. by rewrite (checkCompatibility_inr _ _ Hr).
  - intros Hwt. eexists. by apply checkCompatibility_well_typed.
Qed.

(** A motherboard alone: six blocks have it as one side, none of them is
    performed, and no supply is selected either. *)
Example motherboard_alone :
  checkCompatibility (build (Demo.pick Motherboard 2 Demo.start)) =
    inr {| Report.level := ok; Report.notes := [] |}.
Proof. vm_compute. reflexivity. Qed.

Lemma absent_side_no_note_witness :
  (forall ns,
      check_cpu_mb (Demo.amd_build !! CPU)
        (delete Motherboard Demo.amd_build !! Motherboard) ns = inr (tt, ns)) /\
  notes_cpu_mb (delete Motherboard Demo.amd_build) = [].
Proof.
  destruct (absent_side_no_note (delete Motherboard Demo.amd_build))
    as (H & _).
  apply H. right. vm_compute. reflexivity.
Defined.

(** ** Wattage *)

Lemma js_or_number_or_zero v :
  numeric_or_absent v = true ->
  js_or v (VNum (Int 0)) = VNum (Int (number_or_zero v)).
Proof.
  destruct v as [| | | [z |] | | |]; try done. intros _.
  unfold js_or. cbn. destruct (Z.eqb_spec z 0) as [-> |]; done.
Qed.

Lemma estimateWattage_numeric parts :
  numeric_or_absent (opt_attr (parts !! CPU) "tdp") = true ->
  numeric_or_absent (opt_attr (parts !! GPU) "tdp") = true ->
  estimateWattage parts =
    VNum (Int (number_or_zero (opt_attr (parts !! CPU) "tdp") +
               number_or_zero (opt_attr (parts !! GPU) "tdp") + 100)).
Proof.
  intros Hc Hg. unfold estimateWattage. cbv zeta.
  by rewrite (js_or_number_or_zero _ Hc), (js_or_number_or_zero _ Hg).
Qed.




(** The scenario of the specification: a 65 W CPU and no GPU. *)
Example wattage_cpu_only :
  estimateWattage (build (Demo.pick CPU 0 Demo.start)) = int 165.
Proof. vm_compute. reflexivity. Qed.


Lemma estimateWattage_insert_psu parts psu :
  estimateWattage (<[PSU := psu]> parts) = estimateWattage parts.
Proof. unfold estimateWattage. by rewrite !lookup_insert_ne. Qed.

Lemma estimateWattage_delete_psu parts :
  estimateWattage (delete PSU parts) = estimateWattage parts.
Proof. unfold estimateWattage. by rewrite !lookup_delete_ne. Qed.

(** C6. Without a PSU the last block pushes nothing. With a PSU it pushes
    exactly one note, the last of the report: [warn] when
    [psu.attributes.wattage || 0] is less than [estimateWattage] of the same
    selection, [ok] otherwise; for a numeric wattage [w] and a numeric
    estimate [need] that is [w < need]. The estimate does not depend on the
    PSU slot. *)
Theorem psu_wattage_note (parts : Selection) :
  (parts !! PSU = None -> notes_psu parts = []) /\
  (forall psu,
      parts !! PSU = Some psu ->
      exists n,
        notes_psu parts = [n] /\
        Note.level n =
          (if js_lt (js_or (attr psu "wattage") (VNum (Int 0)))
                    (estimateWattage parts)
           then warn else ok) /\
        (forall w need,
            attr psu "wattage" = VNum (Int w) ->
            estimateWattage parts = VNum (Int need) ->
            (w < need -> Note.level n = warn) /\
            (need <= w -> Note.level n = ok)) /\
        (forall r,
            checkCompatibility parts = inr r ->
            Report.notes r =
              (notes_cpu_mb parts ++ notes_ram_mb parts ++
               notes_gpu_mb parts ++ notes_case_mb parts ++
               notes_cooler_cpu parts ++ notes_storage_mb parts ++ [n])%list)) /\
  (forall psu, estimateWattage (<[PSU := psu]> parts) = estimateWattage parts) /\
  estimateWattage (delete PSU parts) = estimateWattage parts /\
  (lists_well_typed parts = true ->
   exists r, checkCompatibility parts = inr r).
Proof.
  split_and!.
  - intros H. unfold notes_psu. by rewrite H.
  - intros psu Hpsu.
    assert (exists n, notes_psu parts = [n] /\
              Note.level n =
                (if js_lt (js_or (attr psu "wattage") (VNum (Int 0)))
                          (estimateWattage parts)
                 then warn else ok)) as (n & Hn & Hlevel).
    { unfold notes_psu. rewrite Hpsu. unfold check_psu. cbv zeta.
      destruct (js_lt _ _); cbn; eauto. }
    exists n. split_and!; [done | done | |].
    + intros w need Hw Hneed. rewrite Hlevel, Hw, Hneed.
      rewrite (js_or_number_or_zero (VNum (Int w)) eq_refl). cbn.
      destruct (Z.ltb_spec w need); split; intros; first [done | lia].
    + intros r Hr. rewrite (checkCompatibility_inr _ _ Hr). cbn.
      unfold all_notes. by rewrite Hn.
  - apply estimateWattage_insert_psu.
  - apply estimateWattage_delete_psu.
  - intros Hwt. eexists. by apply checkCompatibility_well_typed.
Qed.

Lemma psu_wattage_note_witness :
  exists n,
    notes_psu Demo.amd_build = [n] /\ Note.level n = ok.
Proof.
  destruct (psu_wattage_note Demo.amd_build) as (_ & Hsome & _).
  destruct (Hsome Demo.antec) as (n & Hn & _ & Hnum & _);
    [vm_compute; reflexivity |].
  exists n. split; [exact Hn |].
  apply (Hnum 550 385); [vm_compute; reflexivity .. | lia].
Defined.

(** The scenarios of the specification and a supply that is too small. *)
Example psu_550_is_enough :
  checkCompatibility
    (<[CPU := Demo.bare CPU [("socket", str "AM5"); ("tdp", int 65)]]>
       (<[Motherboard :=
            Demo.bare Motherboard
              [("socket", str "AM5"); ("ramType", str "DDR5")]]>
          (<[PSU := Demo.bare PSU [("wattage", int 550)]]> ∅))) =
    inr {| Report.level := ok;
           Report.notes :=
             [note ok "CPU ✔ เมนบอร์ด ✔ (ซ็อกเก็ตตรงกัน)";
              note ok "PSU เพียงพอ (ต้องการ ~165W)"] |}.
Proof. vm_compute. reflexivity. Qed.

Example psu_300_is_short :
  checkCompatibility
    (<[PSU := Demo.bare PSU [("wattage", int 300)]]> Demo.amd_build) =
    inr {| Report.level := warn;
           Report.notes :=
             [note ok "CPU ✔ เมนบอร์ด ✔ (ซ็อกเก็ตตรงกัน)";
              note ok "GPU ✔ เมนบอร์ด ✔ (มีสล็อต PCIe)";
              note warn
                "กำลังไฟ PSU 300W อาจไม่พอ ต้องการอย่างน้อย ~385W"] |}.
Proof. vm_compute. reflexivity. Qed.

(** A supply without [wattage] counts as 0 W. *)
Example psu_without_wattage :
  checkCompatibility (<[PSU := Demo.bare PSU []]> ∅) =
    inr {| Report.level := warn;
           Report.notes :=
             [note warn
                "กำลังไฟ PSU 0W อาจไม่พอ ต้องการอย่างน้อย ~100W"] |}.
Proof. vm_compute. reflexivity. Qed.

(** ** Missing attributes *)

Lemma strict_eq_undef_l v : v <> VUndef -> strict_eq VUndef v = false.
Proof. by destruct v. Qed.

Lemma strict_eq_undef_r v : v <> VUndef -> strict_eq v VUndef = false.
Proof. destruct v as [| | | [|] | | |]; done. Qed.

Lemma includes_undef l :
  VUndef ∉ l -> existsb (same_value_zero VUndef) l = false.
Proof.
  induction l as [| x l IH]; [done |].
  intros Hnot. apply not_elem_of_cons in Hnot as [Hx Hl]. cbn.
  rewrite (IH Hl), orb_false_r.
  destruct x; try done.
Qed.

(** C2, as the claim states it, fails: with the socket missing on both
    sides the socket block pushes an [ok] note, not an error. *)
Lemma missing_on_both_sides_is_ok :
  ~ (forall (parts : Selection) (cpu mb : Product),
        parts !! CPU = Some cpu ->
        parts !! Motherboard = Some mb ->
        attr cpu "socket" = VUndef \/ attr mb "socket" = VUndef ->
        forall n, n ∈ notes_cpu_mb parts -> Note.level n = error).
Proof.
  intros H.
  specialize (H (<[CPU := Demo.bare CPU []]>
                   (<[Motherboard := Demo.bare Motherboard []]> ∅))
                (Demo.bare CPU []) (Demo.bare Motherboard [])
                eq_refl eq_refl (or_introl eq_refl)
                (note ok "CPU ✔ เมนบอร์ด ✔ (ซ็อกเก็ตตรงกัน)")).
  discriminate H. vm_compute. apply list_elem_of_here.
Qed.

Example no_attributes_at_all :
  checkCompatibility
    (<[CPU := Demo.bare CPU []]>
       (<[Motherboard := Demo.bare Motherboard []]>
          (<[RAM := Demo.bare RAM []]>
             (<[Storage := Demo.bare Storage []]> ∅)))) =
    inr {| Report.level := ok;
           Report.notes :=
             [note ok "CPU ✔ เมนบอร์ด ✔ (ซ็อกเก็ตตรงกัน)";
              note ok "RAM ✔ เมนบอร์ด ✔ (ชนิดแรมตรงกัน)"] |}.
Proof. vm_compute. reflexivity. Qed.

(** C2, amended. In the socket block and in the RAM block an attribute
    missing on exactly one side gives one error note, and an attribute
    missing on both sides gives one [ok] note, since [undefined ===
    undefined]. A missing [pcieSlots] gives one error note; so does a
    missing [formFactorSupport] or [socketSupport], and a missing
    [formFactor] or [socket] looked up in a list that holds no
    [undefined]. The storage block pushes nothing when [interface] or
    [storage] is missing. None of these throws. *)
Theorem missing_attribute_notes (parts : Selection) :
  (forall cpu mb,
      parts !! CPU = Some cpu -> parts !! Motherboard = Some mb ->
      ((attr cpu "socket" = VUndef /\ attr mb "socket" <> VUndef) \/
       (attr cpu "socket" <> VUndef /\ attr mb "socket" = VUndef) ->
       exists n, notes_cpu_mb parts = [n] /\ Note.level n = error) /\
      (attr cpu "socket" = VUndef -> attr mb "socket" = VUndef ->
       exists n, notes_cpu_mb parts = [n] /\ Note.level n = ok)) /\
  (forall ram mb,
      parts !! RAM = Some ram -> parts !! Motherboard = Some mb ->
      ((attr ram "type" = VUndef /\ attr mb "ramType" <> VUndef) \/
       (attr ram "type" <> VUndef /\ attr mb "ramType" = VUndef) ->
       exists n, notes_ram_mb parts = [n] /\ Note.level n = error) /\
      (attr ram "type" = VUndef -> attr mb "ramType" = VUndef ->
       exists n, notes_ram_mb parts = [n] /\ Note.level n = ok)) /\
  (forall gpu mb,
      parts !! GPU = Some gpu -> parts !! Motherboard = Some mb ->
      attr mb "pcieSlots" = VUndef ->
      exists n, notes_gpu_mb parts = [n] /\ Note.level n = error) /\
  (forall pcCase mb,
      parts !! Case = Some pcCase -> parts !! Motherboard = Some mb ->
      (attr pcCase "formFactorSupport" = VUndef ->
       exists n, notes_case_mb parts = [n] /\ Note.level n = error) /\
      (forall l,
          attr pcCase "formFactorSupport" = VArr l -> VUndef ∉ l ->
          attr mb "formFactor" = VUndef ->
          exists n, notes_case_mb parts = [n] /\ Note.level n = error)) /\
  (forall cooler cpu,
      parts !! Cooler = Some cooler -> parts !! CPU = Some cpu ->
      (attr cooler "socketSupport" = VUndef ->
       exists n, notes_cooler_cpu parts = [n] /\ Note.level n = error) /\
      (forall l,
          attr cooler "socketSupport" = VArr l -> VUndef ∉ l ->
          attr cpu "socket" = VUndef ->
          exists n, notes_cooler_cpu parts = [n] /\ Note.level n = error)) /\
  (forall storage mb,
      parts !! Storage = Some storage -> parts !! Motherboard = Some mb ->
      attr storage "interface" = VUndef \/ attr mb "storage" = VUndef ->
      (forall ns,
          check_storage_mb (parts !! Storage) (parts !! Motherboard) ns
          = inr (tt, ns)) /\
      notes_storage_mb parts = []).
Proof.
  split_and!.
  - intros cpu mb Hcpu Hmb. unfold notes_cpu_mb. rewrite Hcpu, Hmb.
    unfold check_cpu_mb. split.
    + intros [[-> Hb] | [Ha ->]];
        [rewrite strict_eq_undef_l by done | rewrite strict_eq_undef_r by done];
        cbn; eauto.
    + intros -> ->. cbn. eauto.
  - intros ram mb Hram Hmb. unfold notes_ram_mb. rewrite Hram, Hmb.
    unfold check_ram_mb. split.
    + intros [[-> Hb] | [Ha ->]];
        [rewrite strict_eq_undef_l by done | rewrite strict_eq_undef_r by done];
        cbn; eauto.
    + intros -> ->. cbn. eauto.
  - intros gpu mb Hgpu Hmb Hslots. unfold notes_gpu_mb. rewrite Hgpu, Hmb.
    unfold check_gpu_mb. rewrite Hslots. cbn. eauto.
  - intros pcCase mb Hcase Hmb. unfold notes_case_mb. rewrite Hcase, Hmb.
    unfold check_case_mb. split.
    + intros ->. cbn. eauto.
    + intros l -> Hl ->. cbn. rewrite (includes_undef l Hl). cbn. eauto.
  - intros cooler cpu Hcooler Hcpu. unfold notes_cooler_cpu.
    rewrite Hcooler, Hcpu. unfold check_cooler_cpu. split.
    + intros ->. cbn. eauto.
    + intros l -> Hl ->. cbn. rewrite (includes_undef l Hl). cbn. eauto.
  - intros storage mb Hst Hmb Hmiss. unfold notes_storage_mb, pushed.
    rewrite Hst, Hmb. unfold check_storage_mb, js_and.
    assert (truthy (if truthy (attr storage "interface")
                    then attr mb "storage"
                    else attr storage "interface") = false) as ->.
    { destruct Hmiss as [-> | ->]; [done |].
      by destruct (truthy (attr storage "interface")) eqn:E. }
    done.
Qed.

Lemma missing_attribute_notes_witness :
  exists n,
    notes_cpu_mb (<[CPU := Demo.bare CPU []]> Demo.amd_build) = [n] /\
    Note.level n = error.
Proof.
  destruct (missing_attribute_notes
              (<[CPU := Demo.bare CPU []]> Demo.amd_build)) as (Hsocket & _).
  destruct (Hsocket (Demo.bare CPU []) Demo.asus) as (Hone & _);
    [vm_compute; reflexivity .. |].
  apply Hone. left. split; [vm_compute; reflexivity | vm_compute; discriminate].
Defined.

(** What the amendment leaves aside: a case whose [formFactorSupport] is a
    single string, as the import stores a cell without a comma, makes the
    error branch call [join] on a string. *)
Example case_with_one_form_factor :
  checkCompatibility
    (<[Case := Demo.bare Case [("formFactorSupport", str "ITX")]]>
       (<[Motherboard := Demo.bare Motherboard []]> ∅)) =
    inl (TypeError "join is not a function").
Proof. vm_compute. reflexivity. Qed.

(** ** Headers *)

Lemma bytes_of_bytes l :
  Forall (fun c => (c < 256)%N) l -> Str.bytes (Str.of_bytes l) = l.
Proof.
  intros Hl. unfold Str.bytes, Str.of_bytes.
  rewrite list_ascii_of_string_of_list_ascii, <- list_fmap_compose.
  induction Hl as [| c l Hc _ IH]; [done |].
  cbn. by rewrite IH, (N_ascii_embedding c Hc).
Qed.

Lemma is_alnum_byte c : is_alnum c = true -> (c < 256)%N.
Proof.
  unfold is_alnum. rewrite orb_true_iff, !andb_true_iff, !N.leb_le. lia.
Qed.

Lemma normalizeHeader_alnum s : alnum_only (normalizeHeader s) = true.
Proof.
  unfold alnum_only, normalizeHeader.
  set (l := strip_backslash_s false (Str.lower (Str.bytes s))).
  rewrite bytes_of_bytes.
  - apply forallb_forall. intros c Hc. by apply filter_In in Hc as [_ Hc].
  - apply Forall_forall. intros c Hc. apply list_elem_of_In in Hc.
    apply filter_In in Hc as [_ Hc]. by apply is_alnum_byte.
Qed.

(** Every key of the lookup table is a normalized header of the row. *)
Lemma headerMap_lookup row k v :
  headerMap row !! k = Some v ->
  exists h, (h, v) ∈ row /\ normalizeHeader h = k.
Proof.
  unfold headerMap.
  enough (forall m0 : gmap string value,
             fold_left (fun m kv => <[normalizeHeader kv.1 := kv.2]> m) row m0
               !! k = Some v ->
             m0 !! k = Some v \/
             exists h, (h, v) ∈ row /\ normalizeHeader h = k) as Hgen.
  { intros H. destruct (Hgen ∅ H) as [H0 | H0]; [| done].
    by rewrite lookup_empty in H0. }
  induction row as [| [h c] row IH]; intros m0 H; [by left |].
  destruct (IH (<[normalizeHeader h := c]> m0) H) as [H0 | (h' & Hin & Hk)].
  - destruct (decide (normalizeHeader h = k)) as [Heq | Hne].
    + rewrite Heq, lookup_insert_eq in H0. injection H0 as ->.
      right. exists h. split; [apply list_elem_of_here | done].
    + rewrite lookup_insert_ne in H0 by done. by left.
  - right. exists h'. split; [by apply list_elem_of_further | done].
Qed.

Lemma headerMap_absent row k :
  (forall h c, (h, c) ∈ row -> normalizeHeader h <> k) ->
  get (headerMap row) k = VUndef.
Proof.
  intros Hno. unfold get.
  destruct (headerMap row !! k) as [v |] eqn:E; [| done].
  apply headerMap_lookup in E as (h & Hin & Hk). by destruct (Hno h v Hin).
Qed.

(** No key of the table has a character outside [a-z0-9]: a lookup under
    any other name finds nothing, whatever the row. *)
Lemma headerMap_not_alnum row k :
  alnum_only k = false -> get (headerMap row) k = VUndef.
Proof.
  intros Hk. apply headerMap_absent. intros h c _ <-.
  by rewrite normalizeHeader_alnum in Hk.
Qed.

(** ** Category *)

Lemma string_app_empty s : s +:+ "" = s.
Proof.
  induction s as [| a s IH]; [done |].
  change (String a s +:+ "") with (String a (s +:+ "")). by rewrite IH.
Qed.

Lemma js_concat_string s : js_concat (VStr s) "" = s.
Proof. unfold js_concat. cbn. apply string_app_empty. Qed.

Lemma js_or_truthy a b : truthy a = true -> js_or a b = a.
Proof. intros H. unfold js_or. by rewrite H. Qed.

Lemma js_or_falsy a b : truthy a = false -> js_or a b = b.
Proof. intros H. unfold js_or. by rewrite H. Qed.

Lemma resolve_category_found m s c :
  get m "category" = VStr s ->
  Str.toLowerCase s = Str.toLowerCase (Category_name c) ->
  resolve_category m = c.
Proof.
  intros Hget Hlow. unfold resolve_category. cbv zeta. rewrite Hget.
  assert (s <> "") as Hs.
  { intros ->. by destruct c. }
  assert (truthy (VStr s) = true) as Ht.
  { cbn. by destruct (String.eqb_spec s ""). }
  rewrite (js_or_truthy (VStr s) _ Ht), (js_or_truthy (VStr s) _ Ht).
  rewrite js_concat_string.
  destruct (String.eqb_spec s ""); [done |].
  rewrite Hlow. by destruct c.
Qed.

(** C7, the defect. [normalizeHeader] deletes every character outside
    [a-z0-9], Thai letters included, so the table never has the key the
    source looks up for the Thai alias of the category: on every row that
    lookup is [undefined], and a row whose only column is the Thai header
    with the cell GPU is imported as a CPU. *)
Theorem thai_category_header_lost :
  (forall row, get (headerMap row) "หมวดหมู่" = VUndef) /\
  normalizeHeader "หมวดหมู่" = "" /\
  (forall JSON_parse uid,
      category (rowToProduct JSON_parse uid [("หมวดหมู่", VStr "GPU")]) = CPU).
Proof.
  split_and!.
  - intros row. by apply headerMap_not_alnum.
  - vm_compute. reflexivity.
  - intros JSON_parse uid. unfold rowToProduct. cbn [category].
    vm_compute. reflexivity.
Qed.

(** What does hold of C7: under the header [Category], or [Type] when
    there is no category cell, the cell is matched without regard to case,
    and anything else falls back to CPU. *)
Example category_any_case JSON_parse uid :
  category (rowToProduct JSON_parse uid [("Category", VStr "gPu")]) = GPU /\
  category (rowToProduct JSON_parse uid [(" CATEGORY ", VStr "GPU")]) = GPU /\
  category (rowToProduct JSON_parse uid
              [("Category", VStr ""); ("Type", VStr "cooler")]) = Cooler /\
  category (rowToProduct JSON_parse uid [("Category", VStr "Laptop")]) = CPU /\
  category (rowToProduct JSON_parse uid [("Name", VStr "x")]) = CPU.
Proof.
  unfold rowToProduct. cbn [category].
  split_and!; vm_compute; reflexivity.
Qed.

(** ** Attribute cells *)

(** A cell with commas becomes a list of trimmed strings; a cell without
    one stays a scalar, a number when it looks like one. *)
Example list_and_scalar_cells JSON_parse uid :
  attributes
    (rowToProduct JSON_parse uid
       [("FormFactorSupport", VStr "ATX, mATX ,ITX"); ("TDP", VStr "65");
        ("Socket", VStr "AM5"); ("Attributes", VStr "")])
  = {[ "formFactorSupport" := strs ["ATX"; "mATX"; "ITX"];
       "tdp" := int 65;
       "socket" := str "AM5" ]}.
Proof.
  unfold rowToProduct. cbn [attributes].
  apply map_eq. intros k. vm_compute. reflexivity.
Qed.

(** The aliases are normalized like the headers, so a Thai alias becomes
    the key of every header without an ASCII letter or digit: here the cell
    of the product column lands in [socket], and the product has no name. *)
Example thai_name_header JSON_parse uid :
  name (rowToProduct JSON_parse uid [("สินค้า", VStr "Ryzen 5 7600")])
  = "Unnamed" /\
  attributes (rowToProduct JSON_parse uid [("สินค้า", VStr "Ryzen 5 7600")])
    !! "socket" = Some (str "Ryzen 5 7600").
Proof.
  unfold rowToProduct. cbn [name attributes].
  split; vm_compute; reflexivity.
Qed.

(** ** Price and stock *)









(** ** The attributes column *)

Lemma Object_assign_object base props :
  Object_assign base (VObj props) = list_to_map (reverse props) ∪ base.
Proof.
  unfold Object_assign. cbn [own_props].
  revert base. induction props as [| [k v] props IH]; intros base.
  - cbn. by rewrite (left_id_L ∅ (∪)).
  - cbn [fold_left fst snd]. rewrite IH, reverse_cons, list_to_map_app.
    rewrite <- (assoc_L (∪)). f_equal.
    cbn. by rewrite <- insert_union_l, (left_id_L ∅ (∪)).
Qed.

Lemma overwritten_union props (base : gmap string value) :
  overwritten props base (list_to_map (reverse props) ∪ base).
Proof.
  split_and!; [done | |].
  - intros Hnd k v Hin. apply lookup_union_Some_l.
    apply elem_of_list_to_map_1.
    + by rewrite fmap_reverse, reverse_Permutation.
    + by apply elem_of_reverse.
  - intros k Hk. apply lookup_union_r, not_elem_of_list_to_map_1.
    by rewrite fmap_reverse, elem_of_reverse.
Qed.

Lemma truthy_string s : s <> "" -> truthy (VStr s) = true.
Proof. intros Hs. cbn. by destruct (String.eqb_spec s ""). Qed.

(** C9. When the cell of the [attributes] column is a string that parses to
    an object, or is an object already, the attributes of the product are
    the alias-resolved ones with every property of that object written
    over them. When the string does not parse, nothing is raised and the
    product is emitted with the alias-resolved attributes and nothing
    else. Each row gives one product either way. The key [__proto__], which
    [Object.assign] hands to an accessor, is set aside. *)
Theorem attributes_column_merge
    (JSON_parse : string -> option value) (uid : string) (row : Row) :
  (forall s props,
      get (headerMap row) "attributes" = VStr s -> s <> "" ->
      JSON_parse s = Some (VObj props) ->
      "__proto__" ∉ props.*1 ->
      overwritten props (aliasAttributes (headerMap row))
        (attributes (rowToProduct JSON_parse uid row))) /\
  (forall props,
      get (headerMap row) "attributes" = VObj props ->
      "__proto__" ∉ props.*1 ->
      overwritten props (aliasAttributes (headerMap row))
        (attributes (rowToProduct JSON_parse uid row))) /\
  (forall s,
      get (headerMap row) "attributes" = VStr s ->
      JSON_parse s = None ->
      rowToProduct JSON_parse uid row =
        {| id := uid;
           name := resolve_name (headerMap row);
           category := resolve_category (headerMap row);
           price := resolve_price (headerMap row);
           stock := resolve_stock (headerMap row);
           attributes := aliasAttributes (headerMap row) |}) /\
  (forall uids json,
      length (productsOfRows JSON_parse uids json) = length json).
Proof.
  unfold rowToProduct. cbn [attributes]. split_and!.
  - intros s props Hcell Hs Hparse _. unfold merge_attributes.
    rewrite Hcell, (truthy_string s Hs), Hparse, Object_assign_object.
    apply overwritten_union.
  - intros props Hcell _. unfold merge_attributes. rewrite Hcell.
    cbn [truthy]. rewrite Object_assign_object. apply overwritten_union.
  - intros s Hcell Hparse. f_equal. unfold merge_attributes.
    rewrite Hcell, Hparse. by destruct (truthy (VStr s)).
  - intros uids json. unfold productsOfRows. apply length_imap.
Qed.

Ltac not_in_list :=
  let H := fresh in
  intros H;
  repeat (apply elem_of_cons in H as [H | H]; [discriminate H |]);
  by apply elem_of_nil in H.

Lemma attributes_column_merge_witness :
  attributes
    (rowToProduct (fun _ => None) "u"
       [("Socket", VStr "AM5"); ("TDP", VStr "65");
        ("Attributes", VObj [("socket", VStr "AM4"); ("cores", int 6)])])
    !! "socket" = Some (VStr "AM4") /\
  attributes
    (rowToProduct (fun _ => None) "u"
       [("Socket", VStr "AM5"); ("TDP", VStr "65");
        ("Attributes", VObj [("socket", VStr "AM4"); ("cores", int 6)])])
    !! "tdp" = Some (int 65) /\
  attributes
    (rowToProduct (fun _ => None) "u"
       [("Socket", VStr "AM5"); ("Attributes", VStr "socket=AM4")])
  = aliasAttributes
      (headerMap [("Socket", VStr "AM5"); ("Attributes", VStr "socket=AM4")]).
Proof.
  destruct (attributes_column_merge (fun _ => None) "u"
              [("Socket", VStr "AM5"); ("TDP", VStr "65");
               ("Attributes", VObj [("socket", VStr "AM4"); ("cores", int 6)])])
    as (_ & Hobject & _).
  destruct (Hobject [("socket", VStr "AM4"); ("cores", int 6)])
    as (_ & Hin & Hout);
    [vm_compute; reflexivity | cbn; not_in_list |].
  destruct (attributes_column_merge (fun _ => None) "u"
              [("Socket", VStr "AM5"); ("Attributes", VStr "socket=AM4")])
    as (_ & _ & Hfail & _).
  split_and!.
  - apply Hin; [| apply list_elem_of_here].
    cbn. repeat constructor; not_in_list.
  - etransitivity; [apply Hout |]; [cbn; not_in_list | vm_compute; reflexivity].
  - by rewrite (Hfail "socket=AM4") by (vm_compute; reflexivity).
Defined.

(** ** Catalog and selection *)

Lemma filter_sublist {A} (f : A -> bool) (l : list A) :
  List.filter f l `sublist_of` l.
Proof.
  induction l as [| x l IH]; [constructor |].
  cbn. destruct (f x); by constructor.
Qed.

(** C10. [deleteProduct] takes out of the inventory the products whose
    [id] is the one given, keeps the others in their order, and does not
    touch the build: a product that was picked stays in its slot, whole,
    after it has been deleted from the catalog. *)
Theorem deleteProduct_keeps_build (st : AppState) (i : string) :
  build (deleteProduct i st) = build st /\
  (forall p,
      p ∈ inventory (deleteProduct i st) <-> p ∈ inventory st /\ id p <> i) /\
  inventory (deleteProduct i st) `sublist_of` inventory st /\
  (forall cat p,
      build st !! cat = Some p ->
      build (deleteProduct i st) !! cat = Some p) /\
  (forall cat p,
      build (deleteProduct (id p) (selectPart cat (Some p) st)) !! cat
      = Some p /\
      p ∉ inventory (deleteProduct (id p) (selectPart cat (Some p) st))).
Proof.
  split_and!.
  - reflexivity.
  - intros p. cbn. rewrite !list_elem_of_In, filter_In, negb_true_iff.
    destruct (String.eqb_spec (id p) i); split; intros [? ?]; done.
  - apply filter_sublist.
  - intros cat p H. exact H.
  - intros cat p. cbn. split; [apply lookup_insert_eq |].
    rewrite list_elem_of_In, filter_In, String.eqb_refl. by intros [_ ?].
Qed.

Lemma deleteProduct_keeps_build_witness :
  build (deleteProduct (Demo.uid 0) (Demo.pick CPU 0 Demo.start)) !! CPU
  = Some Demo.ryzen /\
  Demo.ryzen ∉
    inventory (deleteProduct (Demo.uid 0) (Demo.pick CPU 0 Demo.start)).
Proof.
  destruct (deleteProduct_keeps_build Demo.start (Demo.uid 0))
    as (_ & _ & _ & _ & Hpicked).
  exact (Hpicked CPU Demo.ryzen).
Defined.

(** The stale copy still takes part in the compatibility check. *)
Example stale_copy_is_checked :
  checkCompatibility
    (build (deleteProduct (Demo.uid 0)
              (Demo.pick Motherboard 3 (Demo.pick CPU 0 Demo.start)))) =
    inr {| Report.level := error;
           Report.notes :=
             [note error "CPU socket (AM5) ไม่ตรงกับเมนบอร์ด (LGA1700)"] |}.
Proof. vm_compute. reflexivity. Qed.

(** * Further properties *)

(** ** When [checkCompatibility] throws *)

Lemma returns_case_exact pcCase mb :
  returns (check_case_mb (Some pcCase) (Some mb)) =
    negb (case_throws (attr pcCase "formFactorSupport")
            (attr mb "formFactor")).
Proof.
  unfold check_case_mb, returns, js_or.
  destruct (attr pcCase "formFactorSupport") as [| | [|] | [z |] | s | l |];
    cbn [truthy case_throws negb]; try reflexivity.
  - destruct (z =? 0); reflexivity.
  - destruct (String.eqb s "") eqn:Es; cbn [negb andb].
    + reflexivity.
    + cbn. by destruct (Str.includes s _).
  - cbn. by destruct (existsb _ l).
Qed.

Lemma returns_cooler_exact cooler cpu :
  returns (check_cooler_cpu (Some cooler) (Some cpu)) =
    negb (cooler_throws (attr cooler "socketSupport")).
Proof.
  unfold check_cooler_cpu, returns, js_or, cooler_throws.
  destruct (attr cooler "socketSupport") as [| | [|] | [z |] | s | l |];
    cbn [truthy is_array is_string negb andb orb]; try reflexivity.
  - destruct (z =? 0); reflexivity.
  - destruct (String.eqb s "") eqn:Es; cbn [negb andb].
    + reflexivity.
    + cbn. by destruct (Str.includes s _).
  - cbn. by destruct (existsb _ l).
Qed.

Lemma returns_storage_exact storage mb :
  returns (check_storage_mb (Some storage) (Some mb)) =
    negb (storage_throws (attr storage "interface") (attr mb "storage")).
Proof.
  unfold check_storage_mb, returns, js_and, storage_throws.
  destruct (truthy (attr storage "interface")) eqn:Ei; cycle 1.
  { rewrite Ei. reflexivity. }
  cbn [andb].
  destruct (attr mb "storage") as [| | [|] | [z |] | s | l |];
    cbn [truthy negb andb]; try reflexivity.
  - destruct (z =? 0); reflexivity.
  - unfold js_or. cbn [truthy].
    destruct (String.eqb s "") eqn:Es; cbn [negb andb]; [reflexivity |].
    cbn. by destruct (Str.includes s _).
  - cbn. by destruct (existsb _ l).
Qed.

Lemma all_return_exact parts :
  all_return parts = negb (throws_somewhere parts).
Proof.
  unfold all_return, throws_somewhere.
  rewrite returns_cpu_mb, returns_ram_mb, returns_gpu_mb, returns_psu.
  cbn [andb]. rewrite andb_true_r, !negb_orb. f_equal; [f_equal |].
  - destruct (parts !! Case) as [pcCase |], (parts !! Motherboard) as [mb |];
      try reflexivity.
    apply returns_case_exact.
  - destruct (parts !! Cooler) as [cooler |], (parts !! CPU) as [cpu |];
      try reflexivity.
    apply returns_cooler_exact.
  - destruct (parts !! Storage) as [storage |],
      (parts !! Motherboard) as [mb |]; try reflexivity.
    apply returns_storage_exact.
Qed.



(** ** What the engine reads *)

Lemma check_cpu_mb_attributes cpu mb :
  check_cpu_mb cpu mb =
    check_cpu_mb (attributes_only <$> cpu) (attributes_only <$> mb).
Proof. by destruct cpu, mb. Qed.

Lemma check_ram_mb_attributes ram mb :
  check_ram_mb ram mb =
    check_ram_mb (attributes_only <$> ram) (attributes_only <$> mb).
Proof. by destruct ram, mb. Qed.

Lemma check_gpu_mb_attributes gpu mb :
  check_gpu_mb gpu mb =
    check_gpu_mb (attributes_only <$> gpu) (attributes_only <$> mb).
Proof. by destruct gpu, mb. Qed.

Lemma check_case_mb_attributes pcCase mb :
  check_case_mb pcCase mb =
    check_case_mb (attributes_only <$> pcCase) (attributes_only <$> mb).
Proof. by destruct pcCase, mb. Qed.

Lemma check_cooler_cpu_attributes cooler cpu :
  check_cooler_cpu cooler cpu =
    check_cooler_cpu (attributes_only <$> cooler) (attributes_only <$> cpu).
Proof. by destruct cooler, cpu. Qed.

Lemma check_storage_mb_attributes storage mb :
  check_storage_mb storage mb =
    check_storage_mb (attributes_only <$> storage) (attributes_only <$> mb).
Proof. by destruct storage, mb. Qed.

Lemma estimateWattage_attributes (parts : Selection) :
  estimateWattage parts = estimateWattage (attributes_only <$> parts).
Proof.
  unfold estimateWattage. rewrite !lookup_fmap.
  by destruct (parts !! CPU), (parts !! GPU).
Qed.

Lemma check_psu_attributes (parts : Selection) psu :
  check_psu parts psu =
    check_psu (attributes_only <$> parts) (attributes_only <$> psu).
Proof.
  destruct psu as [psu |]; [| done].
  unfold check_psu. by rewrite <- estimateWattage_attributes.
Qed.

Lemma checkCompatibility_attributes (parts : Selection) :
  checkCompatibility parts = checkCompatibility (attributes_only <$> parts).
Proof.
  unfold checkCompatibility, checkCompatibility_body. cbv zeta.
  rewrite !lookup_fmap.
  by rewrite <- check_cpu_mb_attributes, <- check_ram_mb_attributes,
    <- check_gpu_mb_attributes, <- check_case_mb_attributes,
    <- check_cooler_cpu_attributes, <- check_storage_mb_attributes,
    <- check_psu_attributes.
Qed.

(** X2. The engine reads nothing but [attributes]: two selections whose
    slots hold products with the same attributes get the same report (or
    the same exception) and the same wattage estimate, whatever the
    identifiers, names, categories, prices and stocks. *)
Theorem engine_reads_attributes_only (a b : Selection) :
  (forall c, attributes <$> a !! c = attributes <$> b !! c) ->
  checkCompatibility a = checkCompatibility b /\
  estimateWattage a = estimateWattage b.
Proof.
  intros Hsame.
  assert (attributes_only <$> a = attributes_only <$> b) as Heq.
  { apply map_eq. intros c. rewrite !lookup_fmap.
    specialize (Hsame c).
    destruct (a !! c) as [p |], (b !! c) as [q |]; try done.
    cbn in *. injection Hsame as Hpq. unfold attributes_only. by rewrite Hpq. }
  split.
  - by rewrite (checkCompatibility_attributes a),
      (checkCompatibility_attributes b), Heq.
  - by rewrite (estimateWattage_attributes a),
      (estimateWattage_attributes b), Heq.
Qed.

Lemma engine_reads_attributes_only_witness :
  checkCompatibility
    (<[CPU := product "other" "renamed" GPU 1 0
                [("socket", str "AM5"); ("tdp", int 65)]]> Demo.amd_build)
  = checkCompatibility (<[CPU := Demo.ryzen]> Demo.amd_build) /\
  estimateWattage
    (<[CPU := product "other" "renamed" GPU 1 0
                [("socket", str "AM5"); ("tdp", int 65)]]> Demo.amd_build)
  = estimateWattage (<[CPU := Demo.ryzen]> Demo.amd_build).
Proof.
  apply engine_reads_attributes_only.
  intros c. rewrite !lookup_insert. case_decide; reflexivity.
Defined.

(** ** The other blocks *)

(** X3. With a RAM kit and a motherboard selected, the RAM block pushes
    exactly one note: [ok] when [ram.attributes.type ===
    mb.attributes.ramType], [error] otherwise; on two strings that is
    equality character by character. *)
Theorem ram_mb_type_note (parts : Selection) (ram mb : Product) :
  parts !! RAM = Some ram ->
  parts !! Motherboard = Some mb ->
  exists n,
    notes_ram_mb parts = [n] /\
    Note.level n =
      (if strict_eq (attr ram "type") (attr mb "ramType") then ok else error) /\
    (forall s t,
        attr ram "type" = VStr s -> attr mb "ramType" = VStr t ->
        (s = t -> Note.level n = ok) /\ (s <> t -> Note.level n = error)).
Proof.
  intros Hram Hmb.
  assert (exists n, notes_ram_mb parts = [n] /\
            Note.level n =
              (if strict_eq (attr ram "type") (attr mb "ramType")
               then ok else error)) as (n & Hn & Hlevel).
  { unfold notes_ram_mb. rewrite Hram, Hmb. unfold check_ram_mb.
    destruct (strict_eq _ _); cbn; eauto. }
  exists n. split_and!; [done | done |].
  intros s t Hs Ht. rewrite Hlevel, Hs, Ht.
  destruct (strict_eq (VStr s) (VStr t)) eqn:E.
  - apply strict_eq_strings in E. by split.
  - split; [| done]. intros ->.
    assert (strict_eq (VStr t) (VStr t) = true) by by apply strict_eq_strings.
    congruence.
Qed.

Lemma ram_mb_type_note_witness :
  exists n,
    notes_ram_mb
      (<[RAM := Demo.bare RAM [("type", str "DDR4")]]> Demo.amd_build) = [n] /\
    Note.level n = error.
Proof.
  destruct (ram_mb_type_note
              (<[RAM := Demo.bare RAM [("type", str "DDR4")]]> Demo.amd_build)
              (Demo.bare RAM [("type", str "DDR4")]) Demo.asus)
    as (n & Hn & _ & Hstr); [vm_compute; reflexivity .. |].
  exists n. split; [exact Hn |].
  apply (Hstr "DDR4" "DDR5"); [vm_compute; reflexivity .. | discriminate].
Defined.

(** X4. With a GPU and a motherboard selected, the GPU block pushes exactly
    one note, [ok] when the board's [pcieSlots] is truthy and [error] when
    it is missing, 0 or otherwise falsy. The note does not depend on the
    GPU: any other product in the GPU slot gives the same one. *)
Theorem gpu_mb_slot_note (parts : Selection) (gpu mb : Product) :
  parts !! GPU = Some gpu ->
  parts !! Motherboard = Some mb ->
  exists n,
    notes_gpu_mb parts = [n] /\
    Note.level n = (if truthy (attr mb "pcieSlots") then ok else error) /\
    (forall other, notes_gpu_mb (<[GPU := other]> parts) = [n]).
Proof.
  intros Hgpu Hmb.
  assert (forall g : Product,
             pushed (check_gpu_mb (Some g) (Some mb)) =
             pushed (check_gpu_mb (Some gpu) (Some mb))) as Hany by done.
  assert (exists n, notes_gpu_mb parts = [n] /\
            Note.level n =
              (if truthy (attr mb "pcieSlots") then ok else error))
    as (n & Hn & Hlevel).
  { unfold notes_gpu_mb. rewrite Hgpu, Hmb. unfold check_gpu_mb.
    destruct (truthy _); cbn; eauto. }
  exists n. split_and!; [done | done |].
  intros other. unfold notes_gpu_mb in *.
  rewrite lookup_insert_eq, lookup_insert_ne by done.
  rewrite Hmb, Hany. by rewrite Hgpu, Hmb in Hn.
Qed.

Lemma gpu_mb_slot_note_witness :
  exists n,
    notes_gpu_mb
      (<[Motherboard := Demo.bare Motherboard [("pcieSlots", int 0)]]>
         Demo.amd_build) = [n] /\
    Note.level n = error.
Proof.
  destruct (gpu_mb_slot_note
              (<[Motherboard := Demo.bare Motherboard [("pcieSlots", int 0)]]>
                 Demo.amd_build)
              Demo.rtx (Demo.bare Motherboard [("pcieSlots", int 0)]))
    as (n & Hn & Hlevel & _); [vm_compute; reflexivity .. |].
  exists n. split; [exact Hn | exact Hlevel].
Defined.

Lemma includes_string f l :
  existsb (same_value_zero (VStr f)) l = true <-> VStr f ∈ l.
Proof.
  rewrite existsb_exists. split.
  - intros (x & Hin & Heq). apply list_elem_of_In in Hin.
    destruct x as [| | | [|] | t | |]; try done.
    apply strict_eq_strings in Heq. by subst.
  - intros Hin. exists (VStr f). split; [by apply list_elem_of_In |].
    by apply strict_eq_strings.
Qed.

Lemma includes_string_not f l :
  VStr f ∉ l -> existsb (same_value_zero (VStr f)) l = false.
Proof.
  intros Hnot. destruct (existsb _ l) eqn:E; [| done].
  by apply includes_string in E.
Qed.

(** X5. Case against motherboard, the board's [formFactor] being a string.
    When [formFactorSupport] is a list the block pushes one note: [ok] if
    the form factor is an element of the list, [error] if not. When it is a
    single string, the test is whether the form factor occurs inside that
    string, so a case saying [mATX] passes a board saying [ATX]. *)
Theorem case_mb_form_factor_note (parts : Selection) (pcCase mb : Product)
    (f : string) :
  parts !! Case = Some pcCase ->
  parts !! Motherboard = Some mb ->
  attr mb "formFactor" = VStr f ->
  (forall l,
      attr pcCase "formFactorSupport" = VArr l ->
      exists n,
        notes_case_mb parts = [n] /\
        (VStr f ∈ l -> Note.level n = ok) /\
        (VStr f ∉ l -> Note.level n = error)) /\
  (forall s,
      attr pcCase "formFactorSupport" = VStr s ->
      s <> "" -> Str.includes s f = true ->
      exists n, notes_case_mb parts = [n] /\ Note.level n = ok).
Proof.
  intros Hcase Hmb Hf. unfold notes_case_mb. rewrite Hcase, Hmb.
  unfold check_case_mb. rewrite Hf. split.
  - intros l ->. cbn.
    destruct (existsb (same_value_zero (VStr f)) l) eqn:E; cbn.
    + eexists. split; [done |]. split; [done |].
      intros Hnot. by rewrite (includes_string_not _ _ Hnot) in E.
    + eexists. split; [done |]. split; [| done].
      intros Hin. apply includes_string in Hin. congruence.
  - intros s -> Hs Hin. rewrite (js_or_truthy _ _ (truthy_string s Hs)).
    cbn. rewrite Hin. cbn. eauto.
Qed.

Lemma case_mb_form_factor_note_witness :
  exists n,
    notes_case_mb
      (<[Case := Demo.bare Case [("formFactorSupport", str "mATX")]]>
         Demo.amd_build) = [n] /\
    Note.level n = ok.
Proof.
  destruct (case_mb_form_factor_note
              (<[Case := Demo.bare Case [("formFactorSupport", str "mATX")]]>
                 Demo.amd_build)
              (Demo.bare Case [("formFactorSupport", str "mATX")])
              Demo.asus "ATX") as (_ & Hstring);
    [vm_compute; reflexivity .. |].
  apply (Hstring "mATX"); [vm_compute; reflexivity | discriminate |].
  vm_compute. reflexivity.
Defined.

(** X6. Cooler against CPU, the CPU's [socket] being a string. When
    [socketSupport] is a list the block pushes one note: [ok] if the socket
    is an element, [error] if not. When it is a single string the test is
    whether the socket occurs inside it; when it is missing, or falsy, the
    note is an error. *)
Theorem cooler_cpu_socket_note (parts : Selection) (cooler cpu : Product)
    (k : string) :
  parts !! Cooler = Some cooler ->
  parts !! CPU = Some cpu ->
  attr cpu "socket" = VStr k ->
  (forall l,
      attr cooler "socketSupport" = VArr l ->
      exists n,
        notes_cooler_cpu parts = [n] /\
        (VStr k ∈ l -> Note.level n = ok) /\
        (VStr k ∉ l -> Note.level n = error)) /\
  (forall s,
      attr cooler "socketSupport" = VStr s -> s <> "" ->
      exists n,
        notes_cooler_cpu parts = [n] /\
        Note.level n = (if Str.includes s k then ok else error)) /\
  (truthy (attr cooler "socketSupport") = false ->
   exists n, notes_cooler_cpu parts = [n] /\ Note.level n = error).
Proof.
  intros Hcooler Hcpu Hk. unfold notes_cooler_cpu. rewrite Hcooler, Hcpu.
  unfold check_cooler_cpu. rewrite Hk. split_and!.
  - intros l ->. cbn.
    destruct (existsb (same_value_zero (VStr k)) l) eqn:E; cbn.
    + eexists. split; [done |]. split; [done |].
      intros Hnot. by rewrite (includes_string_not _ _ Hnot) in E.
    + eexists. split; [done |]. split; [| done].
      intros Hin. apply includes_string in Hin. congruence.
  - intros s -> Hs. rewrite (js_or_truthy _ _ (truthy_string s Hs)).
    cbn. destruct (Str.includes s k); cbn; eauto.
  - intros Hfalsy. rewrite (js_or_falsy _ _ Hfalsy). cbn. eauto.
Qed.

Lemma cooler_cpu_socket_note_witness :
  exists n,
    notes_cooler_cpu
      (<[Cooler := Demo.bare Cooler [("socketSupport", strs ["LGA1700"])]]>
         Demo.amd_build) = [n] /\
    Note.level n = error.
Proof.
  destruct (cooler_cpu_socket_note
              (<[Cooler :=
                   Demo.bare Cooler [("socketSupport", strs ["LGA1700"])]]>
                 Demo.amd_build)
              (Demo.bare Cooler [("socketSupport", strs ["LGA1700"])])
              Demo.ryzen "AM5") as (Hlist & _);
    [vm_compute; reflexivity .. |].
  destruct (Hlist [VStr "LGA1700"]) as (n & Hn & _ & Herr);
    [vm_compute; reflexivity |].
  exists n. split; [exact Hn |]. apply Herr. not_in_list.
Defined.

(** X7. Storage against motherboard. The block is skipped, without a note,
    as soon as the drive's [interface] or the board's [storage] is falsy
    (missing, empty string, 0). With a string interface and a list of
    ports it pushes one note: [ok] if the interface is an element of the
    list, [error] if not; an empty list is truthy, so it gives an error. *)
Theorem storage_mb_interface_note (parts : Selection) (storage mb : Product) :
  parts !! Storage = Some storage ->
  parts !! Motherboard = Some mb ->
  (truthy (attr storage "interface") = false \/
   truthy (attr mb "storage") = false ->
   forall ns,
     check_storage_mb (parts !! Storage) (parts !! Motherboard) ns
     = inr (tt, ns)) /\
  (forall k l,
      attr storage "interface" = VStr k -> k <> "" ->
      attr mb "storage" = VArr l ->
      exists n,
        notes_storage_mb parts = [n] /\
        (VStr k ∈ l -> Note.level n = ok) /\
        (VStr k ∉ l -> Note.level n = error)).
Proof.
  intros Hst Hmb. unfold notes_storage_mb. rewrite Hst, Hmb.
  unfold check_storage_mb. split.
  - intros Hfalsy ns. unfold js_and.
    assert (truthy (if truthy (attr storage "interface")
                    then attr mb "storage"
                    else attr storage "interface") = false) as ->; [| done].
    destruct Hfalsy as [H | H]; [by rewrite H |].
    by destruct (truthy (attr storage "interface")) eqn:E.
  - intros k l -> Hk ->. unfold js_and.
    rewrite (truthy_string k Hk). cbn.
    destruct (existsb (same_value_zero (VStr k)) l) eqn:E; cbn.
    + eexists. split; [done |]. split; [done |].
      intros Hnot. by rewrite (includes_string_not _ _ Hnot) in E.
    + eexists. split; [done |]. split; [| done].
      intros Hin. apply includes_string in Hin. congruence.
Qed.

Lemma storage_mb_interface_note_witness :
  exists n,
    notes_storage_mb
      (<[Storage := Demo.bare Storage [("interface", str "SATA")]]>
         (<[Motherboard := Demo.bare Motherboard [("storage", strs [])]]>
            Demo.amd_build)) = [n] /\
    Note.level n = error.
Proof.
  destruct (storage_mb_interface_note
              (<[Storage := Demo.bare Storage [("interface", str "SATA")]]>
                 (<[Motherboard :=
                      Demo.bare Motherboard [("storage", strs [])]]>
                    Demo.amd_build))
              (Demo.bare Storage [("interface", str "SATA")])
              (Demo.bare Motherboard [("storage", strs [])]))
    as (_ & Hlist); [vm_compute; reflexivity .. |].
  destruct (Hlist "SATA" []) as (n & Hn & _ & Herr);
    [vm_compute; reflexivity | discriminate | vm_compute; reflexivity |].
  exists n. split; [exact Hn |]. apply Herr. not_in_list.
Defined.

(** ** Levels and counts *)

Ltac block_levels :=
  repeat match goal with
    | |- context [if ?b then _ else _] => destruct b
    end;
  cbn; intros ? Hin;
  repeat (apply elem_of_cons in Hin as [-> | Hin]; [done |]);
  by apply elem_of_nil in Hin.

Ltac split_on f :=
  match goal with
  | |- context [f ?a ?b] => destruct (f a b) as [? | []]
  end.

Lemma levels_cpu_mb cpu mb n :
  n ∈ pushed (check_cpu_mb cpu mb) -> Note.level n <> warn.
Proof.
  revert n. unfold check_cpu_mb, pushed.
  destruct cpu as [cpu |], mb as [mb |]; block_levels.
Qed.

Lemma levels_ram_mb ram mb n :
  n ∈ pushed (check_ram_mb ram mb) -> Note.level n <> warn.
Proof.
  revert n. unfold check_ram_mb, pushed.
  destruct ram as [ram |], mb as [mb |]; block_levels.
Qed.

Lemma levels_gpu_mb gpu mb n :
  n ∈ pushed (check_gpu_mb gpu mb) -> Note.level n <> warn.
Proof.
  revert n. unfold check_gpu_mb, pushed.
  destruct gpu as [gpu |], mb as [mb |]; block_levels.
Qed.

Lemma levels_case_mb pcCase mb n :
  n ∈ pushed (check_case_mb pcCase mb) -> Note.level n <> warn.
Proof.
  revert n. unfold check_case_mb, pushed.
  destruct pcCase as [pcCase |], mb as [mb |]; try block_levels.
  cbv [mbind M_bind eval].
  split_on js_includes; cbn [negb]; try block_levels.
  cbv [mbind M_bind eval].
  destruct (js_opt_join (attr pcCase "formFactorSupport") ", ");
    block_levels.
Qed.

Lemma levels_cooler_cpu cooler cpu n :
  n ∈ pushed (check_cooler_cpu cooler cpu) -> Note.level n <> warn.
Proof.
  revert n. unfold check_cooler_cpu, pushed.
  destruct cooler as [cooler |], cpu as [cpu |]; try block_levels.
  cbv [mbind M_bind eval].
  split_on js_includes; cbn [negb]; block_levels.
Qed.

Lemma levels_storage_mb storage mb n :
  n ∈ pushed (check_storage_mb storage mb) -> Note.level n <> warn.
Proof.
  revert n. unfold check_storage_mb, pushed.
  destruct storage as [storage |], mb as [mb |]; try block_levels.
  destruct (truthy _); [| block_levels].
  cbv [mbind M_bind eval].
  split_on js_includes; cbn [negb]; try block_levels.
  cbv [mbind M_bind eval].
  destruct (js_join (js_or (attr mb "storage") (VArr [])) ", ");
    block_levels.
Qed.

Lemma levels_psu parts psu n :
  n ∈ pushed (check_psu parts psu) -> Note.level n <> error.
Proof.
  revert n. unfold check_psu, pushed. cbv zeta.
  destruct psu as [psu |]; block_levels.
Qed.

Lemma notes_without_motherboard parts :
  parts !! Motherboard = None ->
  parts !! Cooler = None \/ parts !! CPU = None ->
  all_notes parts = notes_psu parts.
Proof.
  intros Hmb Hcc.
  unfold all_notes, notes_cpu_mb, notes_ram_mb, notes_gpu_mb, notes_case_mb,
    notes_cooler_cpu, notes_storage_mb, pushed.
  rewrite skip_cpu_mb, skip_ram_mb, skip_gpu_mb, skip_case_mb,
    skip_cooler_cpu, skip_storage_mb by auto.
  done.
Qed.

(** X8. Where the levels come from. A warning can only come from the PSU
    block and an error only from the six pairwise blocks: a report at level
    [warn] means a PSU is selected whose [wattage || 0] is below the
    estimate, and a report at level [error] means a motherboard is
    selected, or a cooler together with a CPU. *)
Theorem level_sources (parts : Selection) (r : Report.t) :
  checkCompatibility parts = inr r ->
  (Report.level r = warn ->
   exists psu,
     parts !! PSU = Some psu /\
     js_lt (js_or (attr psu "wattage") (VNum (Int 0)))
       (estimateWattage parts) = true) /\
  (Report.level r = error ->
   is_Some (parts !! Motherboard) \/
   (is_Some (parts !! Cooler) /\ is_Some (parts !! CPU))) /\
  (parts !! PSU = None -> Report.level r <> warn).
Proof.
  intros Hr. rewrite (checkCompatibility_inr _ _ Hr). cbn.
  assert (has_level warn (all_notes parts) = true ->
          exists psu,
            parts !! PSU = Some psu /\
            js_lt (js_or (attr psu "wattage") (VNum (Int 0)))
              (estimateWattage parts) = true) as Hwarn.
  { intros Hw. apply has_level_spec in Hw as (n & Hin & Hl).
    unfold all_notes in Hin. rewrite !elem_of_app in Hin.
    destruct Hin as [H | [H | [H | [H | [H | [H | H]]]]]].
    - by apply levels_cpu_mb in H.
    - by apply levels_ram_mb in H.
    - by apply levels_gpu_mb in H.
    - by apply levels_case_mb in H.
    - by apply levels_cooler_cpu in H.
    - by apply levels_storage_mb in H.
    - unfold notes_psu in H. destruct (parts !! PSU) as [psu |]; cycle 1.
      { by apply elem_of_nil in H. }
      exists psu. split; [done |]. revert H. unfold check_psu. cbv zeta.
      destruct (js_lt _ _); [done |]. cbn. intros H.
      apply list_elem_of_singleton in H. subst n. done. }
  split_and!.
  - unfold overall. destruct (has_level error _); [done |].
    destruct (has_level warn _) eqn:Hw; [| done]. intros _. by apply Hwarn.
  - unfold overall. destruct (has_level error (all_notes parts)) eqn:He;
      cycle 1.
    { by destruct (has_level warn _). }
    intros _. apply has_level_spec in He as (n & Hin & Hl).
    destruct (parts !! Motherboard) as [mb |] eqn:Hmb; [left; eauto |].
    destruct (parts !! Cooler) as [cooler |] eqn:Hcooler; cycle 1.
    { rewrite notes_without_motherboard in Hin by auto.
      by apply levels_psu in Hin. }
    destruct (parts !! CPU) as [cpu |] eqn:Hcpu; [right; split; eauto |].
    rewrite notes_without_motherboard in Hin by auto.
    by apply levels_psu in Hin.
  - intros Hpsu Hlevel. unfold overall in Hlevel.
    destruct (has_level error _); [done |].
    destruct (has_level warn _) eqn:Hw; [| done].
    destruct (Hwarn eq_refl) as (psu & Hsome & _). congruence.
Qed.

Lemma level_sources_witness :
  exists psu,
    (<[PSU := Demo.bare PSU [("wattage", int 300)]]> Demo.amd_build) !! PSU
    = Some psu /\
    js_lt (js_or (attr psu "wattage") (VNum (Int 0)))
      (estimateWattage
         (<[PSU := Demo.bare PSU [("wattage", int 300)]]> Demo.amd_build))
    = true.
Proof.
  destruct (level_sources
              (<[PSU := Demo.bare PSU [("wattage", int 300)]]> Demo.amd_build)
              (report_of
                 (<[PSU := Demo.bare PSU [("wattage", int 300)]]>
                    Demo.amd_build)))
    as (Hwarn & _); [vm_compute; reflexivity |].
  apply Hwarn. vm_compute. reflexivity.
Defined.

Ltac block_length :=
  repeat match goal with
    | |- context [if ?b then _ else _] => destruct b
    end;
  cbn; lia.

Lemma length_cpu_mb cpu mb :
  (length (pushed (check_cpu_mb cpu mb)) <= 1)%nat.
Proof.
  unfold check_cpu_mb, pushed.
  destruct cpu as [cpu |], mb as [mb |]; block_length.
Qed.

Lemma length_ram_mb ram mb :
  (length (pushed (check_ram_mb ram mb)) <= 1)%nat.
Proof.
  unfold check_ram_mb, pushed.
  destruct ram as [ram |], mb as [mb |]; block_length.
Qed.

Lemma length_gpu_mb gpu mb :
  (length (pushed (check_gpu_mb gpu mb)) <= 1)%nat.
Proof.
  unfold check_gpu_mb, pushed.
  destruct gpu as [gpu |], mb as [mb |]; block_length.
Qed.

Lemma length_case_mb pcCase mb :
  (length (pushed (check_case_mb pcCase mb)) <= 1)%nat.
Proof.
  unfold check_case_mb, pushed.
  destruct pcCase as [pcCase |], mb as [mb |]; try block_length.
  cbv [mbind M_bind eval].
  split_on js_includes; cbn [negb]; try block_length.
  cbv [mbind M_bind eval].
  destruct (js_opt_join (attr pcCase "formFactorSupport") ", ");
    block_length.
Qed.

Lemma length_cooler_cpu cooler cpu :
  (length (pushed (check_cooler_cpu cooler cpu)) <= 1)%nat.
Proof.
  unfold check_cooler_cpu, pushed.
  destruct cooler as [cooler |], cpu as [cpu |]; try block_length.
  cbv [mbind M_bind eval].
  split_on js_includes; cbn [negb]; block_length.
Qed.

Lemma length_storage_mb storage mb :
  (length (pushed (check_storage_mb storage mb)) <= 1)%nat.
Proof.
  unfold check_storage_mb, pushed.
  destruct storage as [storage |], mb as [mb |]; try block_length.
  destruct (truthy _); [| block_length].
  cbv [mbind M_bind eval].
  split_on js_includes; cbn [negb]; try block_length.
  cbv [mbind M_bind eval].
  destruct (js_join (js_or (attr mb "storage") (VArr [])) ", ");
    block_length.
Qed.

Lemma length_psu parts psu :
  (length (pushed (check_psu parts psu)) <= 1)%nat.
Proof.
  unfold check_psu, pushed. cbv zeta.
  destruct psu as [psu |]; block_length.
Qed.

(** X9. No block pushes more than one note, so a report has at most seven;
    without a motherboard it has at most two (cooler against CPU, and the
    PSU), and without a motherboard and a PSU at most one. *)
Theorem note_count (parts : Selection) (r : Report.t) :
  checkCompatibility parts = inr r ->
  (length (Report.notes r) <= 7)%nat /\
  (parts !! Motherboard = None -> (length (Report.notes r) <= 2)%nat) /\
  (parts !! Motherboard = None -> parts !! PSU = None ->
   (length (Report.notes r) <= 1)%nat).
Proof.
  intros Hr. rewrite (checkCompatibility_inr _ _ Hr). cbn.
  unfold all_notes. rewrite !length_app.
  pose proof (length_cpu_mb (parts !! CPU) (parts !! Motherboard)).
  pose proof (length_ram_mb (parts !! RAM) (parts !! Motherboard)).
  pose proof (length_gpu_mb (parts !! GPU) (parts !! Motherboard)).
  pose proof (length_case_mb (parts !! Case) (parts !! Motherboard)).
  pose proof (length_cooler_cpu (parts !! Cooler) (parts !! CPU)).
  pose proof (length_storage_mb (parts !! Storage) (parts !! Motherboard)).
  pose proof (length_psu parts (parts !! PSU)).
  unfold notes_cpu_mb, notes_ram_mb, notes_gpu_mb, notes_case_mb,
    notes_cooler_cpu, notes_storage_mb, notes_psu.
  split_and!; [lia | |].
  - intros Hmb. unfold pushed at 1 2 3 4 6.
    rewrite skip_cpu_mb, skip_ram_mb, skip_gpu_mb, skip_case_mb,
      skip_storage_mb by auto.
    cbn. lia.
  - intros Hmb Hpsu. unfold pushed at 1 2 3 4 6 7.
    rewrite skip_cpu_mb, skip_ram_mb, skip_gpu_mb, skip_case_mb,
      skip_storage_mb by auto.
    rewrite Hpsu. cbn. lia.
Qed.

Lemma note_count_witness :
  (length (Report.notes (report_of Demo.amd_build)) <= 7)%nat.
Proof.
  destruct (note_count Demo.amd_build (report_of Demo.amd_build))
    as (H & _); [vm_compute; reflexivity | exact H].
Defined.

(** X10. With [tdp] values that are numbers and not negative, the estimate
    is a number of at least 100. A PSU whose [wattage] is missing or
    otherwise falsy then counts as 0 W and always gets the warning. *)
Theorem wattage_floor (parts : Selection) :
  numeric_or_absent (opt_attr (parts !! CPU) "tdp") = true ->
  numeric_or_absent (opt_attr (parts !! GPU) "tdp") = true ->
  0 <= number_or_zero (opt_attr (parts !! CPU) "tdp") ->
  0 <= number_or_zero (opt_attr (parts !! GPU) "tdp") ->
  (exists need, estimateWattage parts = VNum (Int need) /\ 100 <= need) /\
  (forall psu,
      parts !! PSU = Some psu ->
      truthy (attr psu "wattage") = false ->
      exists n, notes_psu parts = [n] /\ Note.level n = warn).
Proof.
  intros Hc Hg Hc0 Hg0.
  pose proof (estimateWattage_numeric parts Hc Hg) as Hest.
  split.
  - eexists. split; [exact Hest | lia].
  - intros psu Hpsu Hfalsy. unfold notes_psu. rewrite Hpsu.
    unfold check_psu. cbv zeta. rewrite (js_or_falsy _ _ Hfalsy), Hest.
    cbn [js_lt ToPrimitive ToNumber].
    match goal with
    | |- context [?a <? ?b] => destruct (Z.ltb_spec a b); [| lia]
    end.
    cbn. eauto.
Qed.

Lemma wattage_floor_witness :
  exists n,
    notes_psu (<[PSU := Demo.bare PSU []]> Demo.amd_build) = [n] /\
    Note.level n = warn.
Proof.
  destruct (wattage_floor (<[PSU := Demo.bare PSU []]> Demo.amd_build))
    as (_ & Hwarn); [vm_compute; first [reflexivity | discriminate] .. |].
  apply (Hwarn (Demo.bare PSU [])); vm_compute; reflexivity.
Defined.

(** A negative [tdp] is taken as it is: the estimate can drop to 0, and
    then even a PSU without [wattage] passes. *)
Example negative_tdp :
  checkCompatibility
    (<[CPU := Demo.bare CPU [("tdp", int (-100))]]>
       (<[PSU := Demo.bare PSU []]> ∅)) =
    inr {| Report.level := ok;
           Report.notes := [note ok "PSU เพียงพอ (ต้องการ ~0W)"] |}.
Proof. vm_compute. reflexivity. Qed.

(** ** Headers, again *)

Lemma of_bytes_bytes s : Str.of_bytes (Str.bytes s) = s.
Proof.
  unfold Str.of_bytes, Str.bytes. rewrite <- list_fmap_compose.
  rewrite <- (string_of_list_ascii_of_string s) at 2. f_equal.
  induction (list_ascii_of_string s) as [| a l IH]; [done |].
  cbn. by rewrite IH, ascii_N_embedding.
Qed.

(** The 36 bytes [normalizeHeader] keeps. *)
Lemma is_alnum_cases c :
  is_alnum c = true ->
  c ∈ [48; 49; 50; 51; 52; 53; 54; 55; 56; 57;
       97; 98; 99; 100; 101; 102; 103; 104; 105; 106; 107; 108; 109;
       110; 111; 112; 113; 114; 115; 116; 117; 118; 119; 120; 121; 122]%N.
Proof.
  intros H. destruct c as [| p]; [discriminate H |].
  do 8 (try destruct p as [p | p |]); try discriminate H;
    rewrite list_elem_of_In; cbn; tauto.
Qed.

Lemma lower_alnum l :
  forallb is_alnum l = true -> Str.lower l = l.
Proof.
  induction l as [| c l IH]; [done |].
  cbn [forallb]. rewrite andb_true_iff. intros [Hc Hl].
  apply is_alnum_cases in Hc.
  repeat (apply elem_of_cons in Hc as [-> | Hc];
          [cbn; by rewrite (IH Hl) |]).
  by apply elem_of_nil in Hc.
Qed.

Lemma strip_backslash_s_alnum l :
  forallb is_alnum l = true -> strip_backslash_s false l = l.
Proof.
  induction l as [| c l IH]; [done |].
  cbn [forallb]. rewrite andb_true_iff. intros [Hc Hl].
  apply is_alnum_cases in Hc.
  repeat (apply elem_of_cons in Hc as [-> | Hc];
          [cbn; by rewrite (IH Hl) |]).
  by apply elem_of_nil in Hc.
Qed.

Lemma filter_alnum l :
  forallb is_alnum l = true -> List.filter is_alnum l = l.
Proof.
  induction l as [| c l IH]; [done |].
  cbn [forallb]. rewrite andb_true_iff. intros [Hc Hl].
  cbn. by rewrite Hc, (IH Hl).
Qed.

(** X11. [normalizeHeader] returns nothing but the characters [a-z0-9],
    leaves a string made of those characters as it is, and is therefore
    idempotent: the keys the source writes in lower case and without
    punctuation ([price], [formfactor], ...) look up themselves. *)
Theorem normalizeHeader_fixed_points (s : string) :
  alnum_only (normalizeHeader s) = true /\
  (alnum_only s = true -> normalizeHeader s = s) /\
  normalizeHeader (normalizeHeader s) = normalizeHeader s.
Proof.
  assert (forall t, alnum_only t = true -> normalizeHeader t = t) as Hfix.
  { intros t Ht. unfold alnum_only in Ht. unfold normalizeHeader.
    rewrite (lower_alnum _ Ht), (strip_backslash_s_alnum _ Ht),
      (filter_alnum _ Ht).
    apply of_bytes_bytes. }
  split_and!.
  - apply normalizeHeader_alnum.
  - apply Hfix.
  - apply Hfix, normalizeHeader_alnum.
Qed.

Lemma normalizeHeader_fixed_points_witness :
  normalizeHeader "formfactorsupport" = "formfactorsupport".
Proof.
  destruct (normalizeHeader_fixed_points "formfactorsupport") as (_ & H & _).
  apply H. vm_compute. reflexivity.
Defined.

Example headers_that_collide :
  normalizeHeader "Form Factor" = "formfactor" /\
  normalizeHeader "FORM_FACTOR" = "formfactor" /\
  normalizeHeader "form-factor (mb)" = "formfactormb" /\
  normalizeHeader "ขนาด" = "".
Proof. vm_compute. done. Qed.

Lemma headerMap_app row row' :
  headerMap (row ++ row') =
    fold_left (fun m kv => <[normalizeHeader kv.1 := kv.2]> m) row'
      (headerMap row).
Proof. unfold headerMap. apply fold_left_app. Qed.

Lemma fold_headers_other (row : Row) (m0 : gmap string value) k :
  (forall h c, (h, c) ∈ row -> normalizeHeader h <> k) ->
  fold_left (fun m kv => <[normalizeHeader kv.1 := kv.2]> m) row m0 !! k
  = m0 !! k.
Proof.
  revert m0. induction row as [| [h c] row IH]; intros m0 Hno; [done |].
  cbn [fold_left fst snd]. rewrite IH.
  - apply lookup_insert_ne. apply (Hno h c), list_elem_of_here.
  - intros h' c' Hin. apply (Hno h' c'). by apply list_elem_of_further.
Qed.

(** X12. When several headers of a row normalize to the same key, the cell
    of the last one is the one the import sees: a column is found under
    its key exactly when no later column has the same normalized header. *)
Theorem headerMap_last_wins (before after : Row) (h : string) (c : value) :
  (forall h' c', (h', c') ∈ after -> normalizeHeader h' <> normalizeHeader h) ->
  get (headerMap (before ++ (h, c) :: after)) (normalizeHeader h) = c.
Proof.
  intros Hlater. unfold get. rewrite headerMap_app. cbn [fold_left fst snd].
  rewrite (fold_headers_other after _ _ Hlater).
  by rewrite lookup_insert_eq.
Qed.

Lemma headerMap_last_wins_witness :
  get (headerMap [("Price", VStr "100"); ("price (THB)", VStr ""); ("PRICE", VStr "250")])
    (normalizeHeader "PRICE") = VStr "250".
Proof.
  apply (headerMap_last_wins
           [("Price", VStr "100"); ("price (THB)", VStr "")] [] "PRICE").
  intros h' c' Hin. by apply elem_of_nil in Hin.
Defined.

(** ** Attributes from the alias table *)

Lemma fold_alias_lookup (m : gmap string value)
    (pairs : list (string * list string)) (acc : gmap string value) key :
  NoDup pairs.*1 ->
  fold_left
    (fun attributes ka =>
       match first_alias m ka.2 with
       | Some v => <[ka.1 := coerce_cell v]> attributes
       | None => attributes
       end) pairs acc !! key
  = match list_find (fun ka => ka.1 = key) pairs with
    | Some (_, ka) =>
        match first_alias m ka.2 with
        | Some v => Some (coerce_cell v)
        | None => acc !! key
        end
    | None => acc !! key
    end.
Proof.
  revert acc. induction pairs as [| [k aliases] pairs IH]; intros acc Hnd;
    [done |].
  apply NoDup_cons in Hnd as [Hk Hnd]. cbn [fold_left fst snd].
  rewrite (IH _ Hnd). cbn [list_find fst].
  destruct (decide (k = key)) as [-> | Hne].
  - assert (list_find (fun ka : string * list string => ka.1 = key) pairs
            = None) as ->.
    { apply list_find_None, Forall_forall. intros [k' a'] Hin Heq.
      cbn in Heq. subst k'. apply Hk.
      apply list_elem_of_fmap. by exists (key, a'). }
    cbn -[first_alias].
    destruct (first_alias m aliases); [by rewrite lookup_insert_eq | done].
  - destruct (list_find _ pairs) as [[i [k' a']] |] eqn:E;
      cbn -[first_alias].
    + destruct (first_alias m a'); [done |].
      destruct (first_alias m aliases); [by rewrite lookup_insert_ne | done].
    + destruct (first_alias m aliases); [by rewrite lookup_insert_ne | done].
Qed.

Lemma aliasPairs_NoDup : NoDup aliasPairs.*1.
Proof. apply (bool_decide_unpack _). vm_compute. reflexivity. Qed.

Lemma aliasAttributes_at m key aliases :
  (key, aliases) ∈ aliasPairs ->
  aliasAttributes m !! key = coerce_cell <$> first_alias m aliases.
Proof.
  intros Hin. unfold aliasAttributes.
  rewrite (fold_alias_lookup m aliasPairs ∅ key aliasPairs_NoDup).
  assert (exists i, list_find (fun ka : string * list string => ka.1 = key)
                      aliasPairs = Some (i, (key, aliases))) as [i ->].
  { destruct (list_find (fun ka : string * list string => ka.1 = key)
                aliasPairs) as [[i [k' a']] |] eqn:E.
    - apply list_find_Some in E as (Hi & Hk & _). cbn in Hk. subst k'.
      exists i. do 3 f_equal.
      apply list_elem_of_lookup_2 in Hi.
      pose proof aliasPairs_NoDup as Hnd.
      pose proof (elem_of_list_to_map_1 (M := gmap string) _ _ _ Hnd Hi) as H1.
      pose proof (elem_of_list_to_map_1 (M := gmap string) _ _ _ Hnd Hin) as H2.
      congruence.
    - apply list_find_None in E. rewrite Forall_forall in E.
      by destruct (E _ Hin). }
  cbn -[first_alias].
  destruct (first_alias m aliases); [done | apply lookup_empty].
Qed.

Lemma aliasAttributes_elsewhere m key :
  key ∉ aliasPairs.*1 -> aliasAttributes m !! key = None.
Proof.
  intros Hnot. unfold aliasAttributes.
  rewrite (fold_alias_lookup m aliasPairs ∅ key aliasPairs_NoDup).
  assert (list_find (fun ka : string * list string => ka.1 = key) aliasPairs
          = None) as ->; [| done].
  apply list_find_None, Forall_forall. intros [k' a'] Hin Heq.
  cbn in Heq. subst k'. apply Hnot, list_elem_of_fmap. by exists (key, a').
Qed.

Lemma first_alias_spec m aliases v :
  first_alias m aliases = Some v ->
  filled v = true /\
  exists i a,
    aliases !! i = Some a /\ v = get m (normalizeHeader a) /\
    forall j b, (j < i)%nat -> aliases !! j = Some b ->
                filled (get m (normalizeHeader b)) = false.
Proof.
  unfold first_alias. revert v.
  induction aliases as [| a aliases IH]; intros v; [done |].
  cbn [fmap list_fmap List.find].
  change (list_fmap _ _ ?f aliases) with (f <$> aliases).
  destruct (filled (get m (normalizeHeader a))) eqn:Ea.
  - intros [= <-]. split; [done |]. exists 0%nat, a.
    split_and!; [done | done |]. intros j b Hj. lia.
  - intros Hv. destruct (IH v Hv) as (Hf & i & a' & Hi & Hget & Hbefore).
    split; [done |]. exists (S i), a'. split_and!; [done | done |].
    intros [| j] b Hj Hb.
    + cbn in Hb. by injection Hb as <-.
    + apply (Hbefore j b); [lia | done].
Qed.

(** X13. The attributes resolved from the alias table. Each of the eleven
    keys gets the cell of the first of its aliases, in the order of the
    table, whose column is there and not empty, coerced; a key none of
    whose aliases has such a column is not set, and no other key is ever
    set. *)
Theorem aliasAttributes_lookup (m : gmap string value) :
  (forall key aliases,
      (key, aliases) ∈ aliasPairs ->
      aliasAttributes m !! key = coerce_cell <$> first_alias m aliases) /\
  (forall key, key ∉ aliasPairs.*1 -> aliasAttributes m !! key = None) /\
  (forall aliases v,
      first_alias m aliases = Some v ->
      filled v = true /\
      exists i a,
        aliases !! i = Some a /\ v = get m (normalizeHeader a) /\
        forall j b, (j < i)%nat -> aliases !! j = Some b ->
                    filled (get m (normalizeHeader b)) = false) /\
  (forall aliases,
      first_alias m aliases = None ->
      forall a, a ∈ aliases -> filled (get m (normalizeHeader a)) = false).
Proof.
  split_and!.
  - apply aliasAttributes_at.
  - apply aliasAttributes_elsewhere.
  - apply first_alias_spec.
  - intros aliases Hnone a Hin. unfold first_alias in Hnone.
    destruct (filled (get m (normalizeHeader a))) eqn:Ea; [| done].
    assert (In (get m (normalizeHeader a))
              ((fun a => get m (normalizeHeader a)) <$> aliases)) as Hin'.
    { apply list_elem_of_In, list_elem_of_fmap. by exists a. }
    pose proof (find_none _ _ Hnone _ Hin'). congruence.
Qed.

Lemma aliasAttributes_lookup_witness :
  aliasAttributes
    (headerMap [("RAM", VStr "DDR4"); ("RAMType", VStr "DDR5")])
    !! "ramType" = Some (VStr "DDR5").
Proof.
  destruct (aliasAttributes_lookup
              (headerMap [("RAM", VStr "DDR4"); ("RAMType", VStr "DDR5")]))
    as (Hat & _).
  rewrite (Hat "ramType" ["ramtype"; "แรม"; "ram"]).
  - vm_compute. reflexivity.
  - vm_compute. do 2 apply list_elem_of_further. apply list_elem_of_here.
Defined.

(** ** From the sheet to the engine *)

Lemma filled_string s : s <> "" -> filled (VStr s) = true.
Proof.
  intros Hs. unfold filled. cbn. by destruct (String.eqb_spec s "").
Qed.

Lemma coerce_cell_plain_string s :
  Str.includes s "," = false -> StringToNumber s = Some NaN ->
  coerce_cell (VStr s) = VStr s.
Proof.
  intros Hcomma Hnan. unfold coerce_cell. cbv zeta. rewrite Hcomma.
  unfold ToNumber. cbn [ToPrimitive]. by rewrite Hnan.
Qed.

(** X14. A case imported with a single form factor breaks the builder. If
    the [FormFactorSupport] cell of the row is a non-empty string without a
    comma that is no numeric literal, the product carries it as a string,
    not as a list; selected as the case, with any motherboard whose
    [formFactor] string does not occur in it, [checkCompatibility] throws
    a [TypeError]. *)
Theorem imported_single_form_factor_throws
    (JSON_parse : string -> option value) (uid : string) (row : Row)
    (s : string) :
  get (headerMap row) "formfactorsupport" = VStr s ->
  s <> "" ->
  Str.includes s "," = false ->
  StringToNumber s = Some NaN ->
  truthy (get (headerMap row) "attributes") = false ->
  attr (rowToProduct JSON_parse uid row) "formFactorSupport" = VStr s /\
  (forall (parts : Selection) mb f,
      parts !! Case = Some (rowToProduct JSON_parse uid row) ->
      parts !! Motherboard = Some mb ->
      attr mb "formFactor" = VStr f ->
      Str.includes s f = false ->
      exists what, checkCompatibility parts = inl (TypeError what)).
Proof.
  intros Hcell Hs Hcomma Hnan Hattrs.
  assert (attr (rowToProduct JSON_parse uid row) "formFactorSupport"
          = VStr s) as Hattr.
  { unfold attr, rowToProduct. cbn [attributes].
    unfold merge_attributes. rewrite Hattrs.
    rewrite (aliasAttributes_at _ "formFactorSupport"
               ["formfactorsupport"; "รองรับเมนบอร์ด"]).
    - unfold first_alias. cbn [fmap list_fmap].
      assert (normalizeHeader "formfactorsupport" = "formfactorsupport")
        as -> by (vm_compute; reflexivity).
      rewrite Hcell. cbn [List.find]. rewrite (filled_string s Hs).
      cbn [fmap option_fmap option_map default].
      by rewrite coerce_cell_plain_string.
    - vm_compute. do 4 apply list_elem_of_further. apply list_elem_of_here. }
  split; [exact Hattr |].
  intros parts mb f Hcase Hmb Hf Hsub.
  destruct (checkCompatibility_throws parts) as [[what] He]; [| by exists what].
  rewrite all_return_exact. unfold throws_somewhere.
  rewrite Hcase, Hmb, Hattr, Hf. cbn [case_throws ToString].
  rewrite Hsub. by destruct (String.eqb s "").
Qed.

Lemma imported_single_form_factor_throws_witness :
  exists what,
    checkCompatibility
      (<[Case := rowToProduct (fun _ => None) "u"
                   [("Name", VStr "Cooler Master NR200");
                    ("Category", VStr "Case");
                    ("FormFactorSupport", VStr "ITX");
                    ("Attributes", VStr "")]]>
         Demo.amd_build)
    = inl (TypeError what).
Proof.
  destruct (imported_single_form_factor_throws (fun _ => None) "u"
              [("Name", VStr "Cooler Master NR200");
               ("Category", VStr "Case");
               ("FormFactorSupport", VStr "ITX");
               ("Attributes", VStr "")] "ITX") as (_ & Hthrows);
    [vm_compute; reflexivity | discriminate | vm_compute; reflexivity .. |].
  apply (Hthrows _ Demo.asus "ATX"); vm_compute; reflexivity.
Defined.

(** ** Rows without a known column *)

Lemma looked_up_absent row k :
  (forall h c, (h, c) ∈ row -> normalizeHeader h ∉ looked_up) ->
  k ∈ looked_up ->
  get (headerMap row) k = VUndef.
Proof.
  intros Hrow Hk. apply headerMap_absent. intros h c Hin Heq.
  apply (Hrow h c Hin). by rewrite Heq.
Qed.

Lemma find_all_false {A} (f : A -> bool) l :
  (forall x, x ∈ l -> f x = false) -> List.find f l = None.
Proof.
  induction l as [| x l IH]; intros H; [done |].
  cbn. rewrite (H x) by apply list_elem_of_here.
  apply IH. intros y Hy. apply H. by apply list_elem_of_further.
Qed.

Lemma elem_of_concat {A} (x : A) l ls :
  x ∈ l -> l ∈ ls -> x ∈ concat ls.
Proof.
  intros Hx Hl. induction ls as [| l' ls IH]; [by apply elem_of_nil in Hl |].
  cbn. apply elem_of_app. apply elem_of_cons in Hl as [<- | Hl]; auto.
Qed.

(** X15. The import never turns a row down. A row none of whose headers
    normalizes to a key the import reads (the empty row, a row of notes)
    still gives a product: named [Unnamed], in category CPU, with price 0,
    stock 0 and no attributes. *)
Theorem unrecognised_row_defaults
    (JSON_parse : string -> option value) (uid : string) (row : Row) :
  (forall h c, (h, c) ∈ row -> normalizeHeader h ∉ looked_up) ->
  rowToProduct JSON_parse uid row =
    {| id := uid; name := "Unnamed"; category := CPU;
       price := Int 0; stock := Int 0; attributes := ∅ |}.
Proof.
  intros Hrow.
  assert (forall k, k ∈ looked_up -> get (headerMap row) k = VUndef) as Hget.
  { intros k Hk. by apply looked_up_absent. }
  assert (forall k, alnum_only k = false -> get (headerMap row) k = VUndef)
    as Hthai by (intros k Hk; by apply headerMap_not_alnum).
  unfold rowToProduct, resolve_name, resolve_category, resolve_price,
    resolve_stock.
  rewrite (Hget "category"), (Hget "type"), (Hget "name"), (Hget "product"),
    (Hget "price"), (Hget "stock"), (Hget "attributes")
    by (apply (bool_decide_unpack _); vm_compute; reflexivity).
  rewrite (Hthai "หมวดหมู่"), (Hthai "สินค้า"), (Hthai "ราคา"),
    (Hthai "คงเหลือ"), (Hthai "จำนวน") by (vm_compute; reflexivity).
  f_equal.
  unfold merge_attributes. cbn [truthy]. apply map_eq. intros k.
  rewrite lookup_empty.
  destruct (decide (k ∈ aliasPairs.*1)) as [Hin | Hnot];
    [| by apply aliasAttributes_elsewhere].
  apply list_elem_of_fmap in Hin as ([k' aliases] & -> & Hin). cbn [fst].
  rewrite (aliasAttributes_at _ _ _ Hin).
  unfold first_alias. rewrite find_all_false; [done |].
  intros v Hv. apply list_elem_of_fmap in Hv as (a & -> & Ha).
  rewrite Hget; [done |].
  unfold looked_up. apply elem_of_app. right.
  apply list_elem_of_fmap. exists a. split; [done |].
  apply (elem_of_concat a aliases); [done |].
  apply list_elem_of_fmap. by exists (k', aliases).
Qed.

Lemma unrecognised_row_defaults_witness :
  rowToProduct (fun _ => None) "u"
    [("Notes", VStr "ask supplier"); ("SKU", int 4471)] =
    {| id := "u"; name := "Unnamed"; category := CPU;
       price := Int 0; stock := Int 0; attributes := ∅ |}.
Proof.
  apply unrecognised_row_defaults.
  intros h c Hin.
  repeat (apply elem_of_cons in Hin as [[= -> ->] | Hin];
          [vm_compute; not_in_list |]).
  by apply elem_of_nil in Hin.
Defined.

(** ** Saving and deleting products *)

Lemma findIndex_Some {A} (f : A -> bool) l i :
  findIndex f l = Some i ->
  exists x,
    l !! i = Some x /\ f x = true /\
    forall j y, (j < i)%nat -> l !! j = Some y -> f y = false.
Proof.
  revert i. induction l as [| x l IH]; intros i; [done |]. cbn.
  destruct (f x) eqn:Ex.
  - intros [= <-]. exists x. split_and!; [done | done |]. intros; lia.
  - destruct (findIndex f l) as [k |]; [| done]. intros [= <-].
    destruct (IH k eq_refl) as (y & Hy & Hfy & Hbefore).
    exists y. split_and!; [done | done |].
    intros [| j] z Hj Hz; [cbn in Hz; congruence |].
    apply (Hbefore j z); [lia | done].
Qed.

Lemma findIndex_None {A} (f : A -> bool) l :
  findIndex f l = None -> forall x, x ∈ l -> f x = false.
Proof.
  induction l as [| x l IH]; intros H y Hy; [by apply elem_of_nil in Hy |].
  cbn in H. destruct (f x) eqn:Ex; [done |].
  destruct (findIndex f l); [done |].
  apply elem_of_cons in Hy as [-> | Hy]; [done | by apply IH].
Qed.

Lemma filter_insert_out {A} (f : A -> bool) l i x y :
  l !! i = Some x -> f x = false -> f y = false ->
  List.filter f (<[i := y]> l) = List.filter f l.
Proof.
  revert i. induction l as [| z l IH]; intros [| i] Hi Hx Hy; try done.
  - cbn in Hi. injection Hi as ->. cbn. by rewrite Hx, Hy.
  - change (<[S i := y]> (z :: l)) with (z :: <[i := y]> l).
    cbn [List.filter]. by rewrite (IH i Hi Hx Hy).
Qed.

Lemma filter_all {A} (f : A -> bool) l :
  (forall x, x ∈ l -> f x = true) -> List.filter f l = l.
Proof.
  induction l as [| x l IH]; intros H; [done |].
  cbn. rewrite (H x) by apply list_elem_of_here.
  f_equal. apply IH. intros y Hy. apply H. by apply list_elem_of_further.
Qed.

Lemma other_id_self p : other_id (id p) p = false.
Proof. unfold other_id. by rewrite String.eqb_refl. Qed.

Lemma other_id_true i p : other_id i p = true <-> id p <> i.
Proof.
  unfold other_id. rewrite negb_true_iff.
  by destruct (String.eqb_spec (id p) i).
Qed.

Lemma saveProduct_cases p st :
  (exists idx old,
      inventory st !! idx = Some old /\ id old = id p /\
      inventory (saveProduct p st) = <[idx := p]> (inventory st)) \/
  ((forall q, q ∈ inventory st -> id q <> id p) /\
   inventory (saveProduct p st) = p :: inventory st).
Proof.
  unfold saveProduct. cbn [inventory].
  destruct (findIndex _ (inventory st)) as [idx |] eqn:E.
  - left. apply findIndex_Some in E as (old & Hold & Hid & _).
    apply String.eqb_eq in Hid. by exists idx, old.
  - right. split; [| done]. intros q Hq Hid.
    pose proof (findIndex_None _ _ E q Hq) as Hf. cbn in Hf.
    rewrite Hid, String.eqb_refl in Hf. done.
Qed.

Lemma saveProduct_elem p st : p ∈ inventory (saveProduct p st).
Proof.
  destruct (saveProduct_cases p st)
    as [(idx & old & Hold & Hid & ->) | [Hfresh ->]].
  - apply list_elem_of_lookup. exists idx.
    apply list_lookup_insert_eq. by apply lookup_lt_Some in Hold.
  - apply list_elem_of_here.
Qed.

Lemma saveProduct_filter p st :
  List.filter (other_id (id p)) (inventory (saveProduct p st))
  = List.filter (other_id (id p)) (inventory st).
Proof.
  destruct (saveProduct_cases p st)
    as [(idx & old & Hold & Hid & ->) | [Hfresh ->]].
  - apply (filter_insert_out _ _ _ old); [done | |].
    + rewrite <- Hid. apply other_id_self.
    + apply other_id_self.
  - cbn. by rewrite other_id_self.
Qed.

(** X16. [saveProduct] puts the product in the inventory and leaves every
    product with another [id] where it was: the products with other ids
    are the same, in the same order, before and after. The inventory keeps
    its length when the id was already there and grows by one, at the
    front, when it was not. The build is not touched. *)
Theorem saveProduct_keeps_others (p : Product) (st : AppState) :
  p ∈ inventory (saveProduct p st) /\
  List.filter (other_id (id p)) (inventory (saveProduct p st))
  = List.filter (other_id (id p)) (inventory st) /\
  ((exists q, q ∈ inventory st /\ id q = id p) ->
   length (inventory (saveProduct p st)) = length (inventory st)) /\
  ((forall q, q ∈ inventory st -> id q <> id p) ->
   inventory (saveProduct p st) = p :: inventory st) /\
  build (saveProduct p st) = build st.
Proof.
  split_and!;
    [apply saveProduct_elem | apply saveProduct_filter | | | reflexivity].
  - intros (q & Hq & Hid).
    destruct (saveProduct_cases p st)
      as [(idx & old & Hold & _ & ->) | [Hfresh _]].
    + apply length_insert.
    + by destruct (Hfresh q Hq).
  - intros Hfresh.
    destruct (saveProduct_cases p st)
      as [(idx & old & Hold & Hid & _) | [_ ->]]; [| done].
    by destruct (Hfresh old (list_elem_of_lookup_2 _ _ _ Hold)).
Qed.

Lemma saveProduct_keeps_others_witness :
  length (inventory (saveProduct (Demo.bare CPU []) (saveProduct (Demo.bare GPU []) Demo.start)))
  = length (inventory (saveProduct (Demo.bare GPU []) Demo.start)).
Proof.
  destruct (saveProduct_keeps_others (Demo.bare CPU [])
              (saveProduct (Demo.bare GPU []) Demo.start))
    as (_ & _ & Hlen & _).
  apply Hlen. exists (Demo.bare GPU []). split; [| reflexivity].
  apply list_elem_of_here.
Defined.

(** X17. Unique identifiers stay unique under [saveProduct], and then the
    saved product is the only one with its [id]: looking a product up by
    id after a save finds what was saved. *)
Theorem saveProduct_unique_ids (p : Product) (st : AppState) :
  NoDup (id <$> inventory st) ->
  NoDup (id <$> inventory (saveProduct p st)) /\
  (forall q, q ∈ inventory (saveProduct p st) -> id q = id p -> q = p) /\
  List.find (fun q => String.eqb (id q) (id p)) (inventory (saveProduct p st))
  = Some p.
Proof.
  intros Hnd.
  assert (NoDup (id <$> inventory (saveProduct p st))) as Hnd'.
  { destruct (saveProduct_cases p st)
      as [(idx & old & Hold & Hid & ->) | [Hfresh ->]].
    - rewrite list_fmap_insert, <- Hid.
      rewrite list_insert_id; [done |]. by rewrite list_lookup_fmap, Hold.
    - cbn. apply NoDup_cons. split; [| done].
      intros Hin. apply list_elem_of_fmap in Hin as (q & Hq & Hin).
      by destruct (Hfresh q Hin). }
  assert (p ∈ inventory (saveProduct p st)) as Hp
    by apply saveProduct_elem.
  assert (forall q, q ∈ inventory (saveProduct p st) -> id q = id p -> q = p)
    as Hone.
  { intros q Hq Hid.
    apply list_elem_of_lookup in Hq as [i Hi], Hp as [j Hj].
    assert (i = j) as ->; [| congruence].
    apply (NoDup_lookup _ _ _ (id p) Hnd');
      rewrite list_lookup_fmap; [by rewrite Hi; cbn; f_equal | by rewrite Hj]. }
  split_and!; [done | done |].
  destruct (List.find _ (inventory (saveProduct p st))) as [q |] eqn:E.
  - apply find_some in E as [Hq Hid]. apply String.eqb_eq in Hid.
    f_equal. apply Hone; [by apply list_elem_of_In | done].
  - apply list_elem_of_In in Hp.
    pose proof (find_none _ _ E p Hp) as Hf. cbn in Hf.
    by rewrite String.eqb_refl in Hf.
Qed.

Lemma saveProduct_unique_ids_witness :
  List.find (fun q => String.eqb (id q) "x")
    (inventory
       (saveProduct (product "x" "new name" CPU 2 2 [])
          {| inventory := [product "y" "" GPU 1 1 []; product "x" "" CPU 1 1 []];
             build := ∅ |}))
  = Some (product "x" "new name" CPU 2 2 []).
Proof.
  destruct (saveProduct_unique_ids (product "x" "new name" CPU 2 2 [])
              {| inventory :=
                   [product "y" "" GPU 1 1 []; product "x" "" CPU 1 1 []];
                 build := ∅ |}) as (_ & _ & Hfind).
  - cbn. repeat constructor; not_in_list.
  - exact Hfind.
Defined.

(** X18. Deleting right after saving undoes the save up to that id:
    [deleteProduct (id p)] gives the same state whether [p] was saved
    first or not, so for a product whose id was not in the inventory the
    state is back to what it was. Saving the same product twice is saving
    it once. *)
Theorem save_then_delete (p : Product) (st : AppState) :
  deleteProduct (id p) (saveProduct p st) = deleteProduct (id p) st /\
  ((forall q, q ∈ inventory st -> id q <> id p) ->
   deleteProduct (id p) (saveProduct p st) = st) /\
  saveProduct p (saveProduct p st) = saveProduct p st.
Proof.
  assert (deleteProduct (id p) (saveProduct p st) = deleteProduct (id p) st)
    as Hdel.
  { unfold deleteProduct. f_equal. apply saveProduct_filter. }
  split_and!; [done | |].
  - intros Hfresh. rewrite Hdel. destruct st as [inv b].
    unfold deleteProduct. cbn. f_equal. apply filter_all.
    intros q Hq. apply (other_id_true (id p) q). by apply Hfresh.
  - destruct (saveProduct_cases p st)
      as [(idx & old & Hold & Hid & Heq) | [Hfresh Heq]].
    + destruct st as [inv b]. unfold saveProduct in *. cbn in *.
      destruct (findIndex _ inv) as [k |] eqn:E; cycle 1.
      { apply list_elem_of_lookup_2 in Hold.
        pose proof (findIndex_None _ _ E old Hold) as Hf. cbn in Hf.
        by rewrite Hid, String.eqb_refl in Hf. }
      assert (findIndex (fun x => String.eqb (id x) (id p)) (<[k := p]> inv)
              = Some k) as ->.
      { clear -E. revert k E. induction inv as [| x inv IH]; intros k; [done |].
        cbn. destruct (String.eqb (id x) (id p)) eqn:Ex.
        - intros [= <-]. cbn. by rewrite String.eqb_refl.
        - destruct (findIndex _ inv) as [j |]; [| done]. intros [= <-].
          change (<[S j := p]> (x :: inv)) with (x :: <[j := p]> inv).
          cbn [findIndex]. by rewrite Ex, (IH j eq_refl). }
      by rewrite list_insert_insert_eq.
    + destruct st as [inv b]. unfold saveProduct in *. cbn in *.
      destruct (findIndex _ inv) as [k |] eqn:E.
      { apply findIndex_Some in E as (old & Hold & Hid & _).
        apply String.eqb_eq in Hid.
        by destruct (Hfresh old (list_elem_of_lookup_2 _ _ _ Hold)). }
      cbn. by rewrite String.eqb_refl.
Qed.

Lemma save_then_delete_witness :
  deleteProduct "fresh"
    (saveProduct (product "fresh" "" CPU 1 1 []) Demo.start)
  = Demo.start.
Proof.
  destruct (save_then_delete (product "fresh" "" CPU 1 1 []) Demo.start)
    as (_ & Hback & _).
  apply Hback. intros q Hq.
  repeat (apply elem_of_cons in Hq as [-> | Hq]; [discriminate |]).
  by apply elem_of_nil in Hq.
Defined.

(** ** The picker *)

Lemma availableByCat_fold inv (acc : Category -> list Product) cat :
  fold_left
    (fun map p =>
       if num_gt_zero (stock p) then
         fun c =>
           if decide (c = category p) then (map c ++ [p])%list else map c
       else map) inv acc cat
  = (acc cat ++ List.filter (on_offer cat) inv)%list.
Proof.
  revert acc. induction inv as [| p inv IH]; intros acc.
  - cbn. by rewrite app_nil_r.
  - cbn [fold_left List.filter]. rewrite IH. unfold on_offer at 2.
    destruct (num_gt_zero (stock p)); cbn [andb]; [| done].
    destruct (decide (cat = category p)) as [-> | Hne].
    + rewrite bool_decide_eq_true_2 by done. by rewrite <- app_assoc.
    + rewrite bool_decide_eq_false_2 by done. done.
Qed.

Lemma availableByCat_filter inv cat :
  availableByCat inv cat = List.filter (on_offer cat) inv.
Proof. unfold availableByCat. by rewrite availableByCat_fold. Qed.

Lemma on_offer_spec cat p :
  on_offer cat p = true <->
  category p = cat /\ exists z, stock p = Int z /\ 0 < z.
Proof.
  unfold on_offer, num_gt_zero. rewrite andb_true_iff, bool_decide_eq_true.
  destruct (stock p) as [z |].
  - rewrite Z.ltb_lt. split.
    + intros [Hz Hc]. eauto.
    + intros [Hc (z' & [= <-] & Hz)]. done.
  - split; [by intros [? _] | by intros [_ (z & ? & _)]].
Qed.

(** X19. What the picker of a category offers: the products of the
    inventory that are of that category and whose stock is a number above
    0, in the order of the inventory. A product whose stock is 0, negative
    or [NaN] is never offered. *)
Theorem picker_offers (inv : list Product) (cat : Category) :
  availableByCat inv cat = List.filter (on_offer cat) inv /\
  (forall p,
      p ∈ availableByCat inv cat <->
      p ∈ inv /\ category p = cat /\ exists z, stock p = Int z /\ 0 < z) /\
  availableByCat inv cat `sublist_of` inv.
Proof.
  rewrite availableByCat_filter. split_and!; [done | |].
  - intros p. by rewrite list_elem_of_In, filter_In, on_offer_spec,
      list_elem_of_In.
  - apply filter_sublist.
Qed.

Lemma picker_offers_witness :
  availableByCat
    (product "a" "" CPU 1 0 [] :: product "b" "" CPU 1 3 [] ::
     {| id := "c"; name := ""; category := CPU; price := Int 1;
        stock := NaN; attributes := ∅ |} :: DEMO_DATA Demo.uid) CPU
  = [product "b" "" CPU 1 3 []; Demo.ryzen; Demo.core_i5].
Proof.
  destruct (picker_offers
              (product "a" "" CPU 1 0 [] :: product "b" "" CPU 1 3 [] ::
               {| id := "c"; name := ""; category := CPU; price := Int 1;
                  stock := NaN; attributes := ∅ |} :: DEMO_DATA Demo.uid) CPU)
    as (-> & _).
  vm_compute. reflexivity.
Defined.

Lemma onValueChange_slot cat i st p :
  build (onValueChange cat i st) !! cat = Some p ->
  p ∈ inventory st /\ id p = i /\ on_offer cat p = true.
Proof.
  unfold onValueChange, selectPart. cbn [build].
  rewrite availableByCat_filter.
  destruct (List.find _ _) as [q |] eqn:E.
  - rewrite lookup_insert_eq. intros [= <-].
    apply find_some in E as [Hin Hid]. apply filter_In in Hin as [Hin Hoffer].
    apply String.eqb_eq in Hid. by rewrite list_elem_of_In.
  - by rewrite lookup_delete_eq.
Qed.

Lemma find_first {A} (f : A -> bool) before x after :
  (forall y, y ∈ before -> f y = false) -> f x = true ->
  List.find f (before ++ x :: after) = Some x.
Proof.
  intros Hbefore Hx. induction before as [| y before IH]; cbn.
  - by rewrite Hx.
  - rewrite (Hbefore y) by apply list_elem_of_here.
    apply IH. intros z Hz. apply Hbefore. by apply list_elem_of_further.
Qed.

Lemma filter_middle {A} (f : A -> bool) before x after :
  f x = true ->
  List.filter f (before ++ x :: after)
  = (List.filter f before ++ x :: List.filter f after)%list.
Proof.
  intros Hx. induction before as [| y before IH]; cbn.
  - by rewrite Hx.
  - rewrite IH. by destruct (f y).
Qed.

Lemma onValueChange_first cat i st before p after :
  inventory st = (before ++ p :: after)%list ->
  id p = i -> on_offer cat p = true ->
  (forall q, q ∈ before -> id q = i -> on_offer cat q = false) ->
  build (onValueChange cat i st) !! cat = Some p.
Proof.
  intros Hinv Hid Hoffer Hbefore.
  unfold onValueChange, selectPart. cbn [build].
  rewrite availableByCat_filter, Hinv, (filter_middle _ _ _ _ Hoffer).
  rewrite (find_first (fun x => String.eqb (id x) i)).
  - apply lookup_insert_eq.
  - intros q Hq. apply list_elem_of_In, filter_In in Hq as [Hq Hon].
    apply list_elem_of_In in Hq.
    destruct (String.eqb_spec (id q) i) as [Heq |]; [| done].
    by rewrite (Hbefore q Hq Heq) in Hon.
  - by apply String.eqb_eq.
Qed.

(** X20. Choosing an entry in the picker of a category. The slot gets the
    first product on offer with that id, in the order of the inventory:
    the one before which no product with that id is on offer. Only that
    slot changes and the inventory stays. When no product on offer has the
    id (it is unknown, of another category, or out of stock) the slot is
    emptied. *)
Theorem onValueChange_picks (cat : Category) (i : string) (st : AppState) :
  inventory (onValueChange cat i st) = inventory st /\
  (forall c, c <> cat ->
             build (onValueChange cat i st) !! c = build st !! c) /\
  (forall p,
      build (onValueChange cat i st) !! cat = Some p ->
      p ∈ inventory st /\ id p = i /\ on_offer cat p = true) /\
  ((forall p, p ∈ inventory st -> id p = i -> on_offer cat p = false) ->
   build (onValueChange cat i st) !! cat = None) /\
  (forall p,
      p ∈ inventory st -> id p = i -> on_offer cat p = true ->
      is_Some (build (onValueChange cat i st) !! cat)) /\
  (forall before p after,
      inventory st = (before ++ p :: after)%list ->
      id p = i -> on_offer cat p = true ->
      (forall q, q ∈ before -> id q = i -> on_offer cat q = false) ->
      build (onValueChange cat i st) !! cat = Some p).
Proof.
  split_and!.
  - reflexivity.
  - intros c Hc. unfold onValueChange, selectPart. cbn [build].
    destruct (List.find _ _); [by rewrite lookup_insert_ne |
                               by rewrite lookup_delete_ne].
  - apply onValueChange_slot.
  - intros Hnone.
    destruct (build (onValueChange cat i st) !! cat) as [p |] eqn:E; [| done].
    apply onValueChange_slot in E as (Hin & Hid & Hoffer).
    by rewrite (Hnone p Hin Hid) in Hoffer.
  - intros p Hin Hid Hoffer. unfold onValueChange, selectPart. cbn [build].
    rewrite availableByCat_filter.
    destruct (List.find _ _) as [q |] eqn:E;
      [rewrite lookup_insert_eq; eauto |].
    assert (In p (List.filter (on_offer cat) (inventory st))) as Hp.
    { apply filter_In. by rewrite <- list_elem_of_In. }
    pose proof (find_none _ _ E p Hp) as Hf. cbn in Hf.
    by rewrite Hid, String.eqb_refl in Hf.
  - apply onValueChange_first.
Qed.

(** Three products share an id: the first is sold out, so the second is
    picked, not the third. *)
Lemma onValueChange_picks_witness :
  build
    (onValueChange CPU "twin"
       {| inventory :=
            [product "twin" "sold out" CPU 1 0 [];
             product "twin" "first on offer" CPU 2 5 [];
             product "twin" "second on offer" CPU 3 5 []];
          build := ∅ |}) !! CPU
  = Some (product "twin" "first on offer" CPU 2 5 []).
Proof.
  destruct (onValueChange_picks CPU "twin"
              {| inventory :=
                   [product "twin" "sold out" CPU 1 0 [];
                    product "twin" "first on offer" CPU 2 5 [];
                    product "twin" "second on offer" CPU 3 5 []];
                 build := ∅ |}) as (_ & _ & _ & _ & _ & Hfirst).
  apply (Hfirst [product "twin" "sold out" CPU 1 0 []] _
           [product "twin" "second on offer" CPU 3 5 []]);
    [reflexivity | reflexivity | reflexivity |].
  intros q Hq _. apply list_elem_of_singleton in Hq as ->. reflexivity.
Defined.

(** A pick that finds nothing on offer empties the slot. *)
Example pick_sold_out :
  build
    (onValueChange CPU "sold-out"
       (onValueChange CPU "demo0"
          {| inventory := product "sold-out" "" CPU 1 0 [] :: DEMO_DATA Demo.uid;
             build := ∅ |})) !! CPU = None.
Proof. vm_compute. reflexivity. Qed.

(** ** An invariant of the session *)

Lemma build_sorted_step st st' :
  step st st' -> build_sorted st -> build_sorted st'.
Proof.
  intros Hstep Hinv. destruct Hstep as
    [p st | i st | outcome st | uid confirmed st | cat i st | cat st].
  - exact Hinv.
  - exact Hinv.
  - by destruct outcome.
  - destruct confirmed; [| exact Hinv]. intros c p. cbn.
    by rewrite lookup_empty.
  - intros c p Hp. destruct (decide (c = cat)) as [-> | Hne].
    + apply onValueChange_slot in Hp as (_ & _ & Hoffer).
      unfold on_offer in Hoffer. apply andb_true_iff in Hoffer as [Hs Hc].
      by apply bool_decide_eq_true in Hc.
    + apply (Hinv c p). revert Hp. unfold onValueChange, selectPart.
      cbn [build].
      destruct (List.find _ _); [by rewrite lookup_insert_ne |
                                 by rewrite lookup_delete_ne].
  - intros c p. cbn. destruct (decide (c = cat)) as [-> | Hne].
    + by rewrite lookup_delete_eq.
    + rewrite lookup_delete_ne by done. apply Hinv.
Qed.

Lemma items_elem_of (selection : Selection) p :
  p ∈ Summary.items selection <-> exists c, selection !! c = Some p.
Proof.
  unfold Summary.items. rewrite list_elem_of_omap. split.
  - intros (c & _ & Hc). eauto.
  - intros (c & Hc). exists c. split; [| done].
    destruct c; unfold CATEGORIES; set_solver.
Qed.

Lemma items_categories (selection : Selection) (l : list Category) :
  (forall c p, selection !! c = Some p -> category p = c) ->
  (category <$> omap (fun c => selection !! c) l) `sublist_of` l.
Proof.
  intros Hsorted. induction l as [| c l IH]; [constructor |].
  cbn. destruct (selection !! c) as [p |] eqn:E.
  - cbn. rewrite (Hsorted c p E). by constructor.
  - by constructor.
Qed.

(** X21. In every state reached from a state whose build is well sorted
    (the empty build of a first visit, for one) through saving, deleting,
    importing, resetting, picking and clearing, each slot of the build
    holds a product of its own category that was in stock when picked.
    Hence the summary never finds a picked part out of stock, even after
    the catalog entry has been edited or deleted, and it lists the parts
    in the order of [CATEGORIES]. *)
Theorem build_sorted_invariant (st st' : AppState) :
  build_sorted st ->
  rtc step st st' ->
  build_sorted st' /\
  Summary.outOfStock (build st') = [] /\
  (category <$> Summary.items (build st')) `sublist_of` CATEGORIES.
Proof.
  intros Hinv Hsteps.
  assert (build_sorted st') as Hinv'.
  { induction Hsteps as [| a b c Hab _ IH]; [done |].
    apply IH. by apply (build_sorted_step a b). }
  split_and!; [done | |].
  - unfold Summary.outOfStock.
    assert (forall q, q ∈ Summary.items (build st') ->
                      num_le_zero (stock q) = false) as Hpos.
    { intros q Hq. apply items_elem_of in Hq as (c & Hc).
      destruct (Hinv' c q Hc) as [_ Hs]. unfold num_gt_zero in Hs.
      unfold num_le_zero. destruct (stock q) as [z |]; [| done].
      apply Z.ltb_lt in Hs. apply Z.leb_gt. lia. }
    induction (Summary.items (build st')) as [| q l IH]; [done |].
    cbn. rewrite (Hpos q) by apply list_elem_of_here.
    apply IH. intros x Hx. apply Hpos. by apply list_elem_of_further.
  - apply items_categories. intros c p Hc. by apply (Hinv' c p).
Qed.

Lemma build_sorted_invariant_witness :
  Summary.outOfStock
    (build (saveProduct (product "demo0" "AMD Ryzen 5 7600" CPU 7490 0 [])
              (onValueChange CPU "demo0" Demo.start))) = [].
Proof.
  destruct (build_sorted_invariant Demo.start
              (saveProduct (product "demo0" "AMD Ryzen 5 7600" CPU 7490 0 [])
                 (onValueChange CPU "demo0" Demo.start)))
    as (_ & Hstock & _).
  - intros c p Hp. cbn in Hp. by rewrite lookup_empty in Hp.
  - eapply rtc_l; [apply step_pick |]. apply rtc_once. apply step_save.
  - exact Hstock.
Defined.

(** ** Totals *)

Lemma num_or_zero_price p : num_or_zero (price p) = Int (price_number p).
Proof.
  unfold num_or_zero, price_number. destruct (price p) as [z |]; [| done].
  cbn. by destruct (Z.eqb_spec z 0) as [-> |].
Qed.

Lemma selectedTotal_fold values a :
  fold_left
    (fun sum p =>
       num_add sum
         match p with
         | Some p => num_or_zero (price p)
         | None => Int 0
         end) values (Int a)
  = Int (a + sum_prices (present values)).
Proof.
  unfold present.
  revert a. induction values as [| [p |] values IH]; intros a; cbn.
  - f_equal. lia.
  - rewrite num_or_zero_price. cbn. rewrite IH. f_equal.
    unfold sum_prices. lia.
  - rewrite IH. f_equal. unfold sum_prices. lia.
Qed.

Lemma total_fold_numbers l a :
  (forall p, p ∈ l -> price p <> NaN) ->
  fold_left (fun s p => num_add s (price p)) l (Int a)
  = Int (a + sum_prices l).
Proof.
  revert a. induction l as [| p l IH]; intros a Hnum; cbn.
  - f_equal. lia.
  - assert (price p = Int (price_number p)) as Hp.
    { unfold price_number. destruct (price p) eqn:E; [done |].
      destruct (Hnum p); [apply list_elem_of_here | done]. }
    rewrite Hp at 1. cbn. rewrite IH.
    + f_equal. unfold sum_prices. lia.
    + intros q Hq. apply Hnum. by apply list_elem_of_further.
Qed.

Lemma total_fold_NaN l :
  fold_left (fun s p => num_add s (price p)) l NaN = NaN.
Proof. induction l as [| p l IH]; [done |]. cbn. exact IH. Qed.

Lemma total_fold_some_NaN l s :
  (exists p, p ∈ l /\ price p = NaN) ->
  fold_left (fun s p => num_add s (price p)) l s = NaN.
Proof.
  revert s. induction l as [| q l IH]; intros s (p & Hin & Hp).
  - by apply elem_of_nil in Hin.
  - cbn. apply elem_of_cons in Hin as [<- | Hin].
    + rewrite Hp. destruct s; cbn; apply total_fold_NaN.
    + apply IH. eauto.
Qed.

Lemma sum_prices_Permutation l l' :
  l ≡ₚ l' -> sum_prices l = sum_prices l'.
Proof.
  induction 1 as [| p l l' _ IH | p q l | l l' l'' _ IH1 _ IH2];
    unfold sum_prices in *; cbn; lia.
Qed.

Lemma sum_magnitudes_Permutation l l' :
  l ≡ₚ l' -> sum_magnitudes l = sum_magnitudes l'.
Proof.
  induction 1 as [| p l l' _ IH | p q l | l l' l'' _ IH1 _ IH2];
    unfold sum_magnitudes in *; cbn; lia.
Qed.

Lemma sum_magnitudes_app l l' :
  sum_magnitudes (l ++ l') = sum_magnitudes l + sum_magnitudes l'.
Proof.
  induction l as [| p l IH]; [done |].
  unfold sum_magnitudes in *. cbn. lia.
Qed.

Lemma sum_magnitudes_nonneg l : 0 <= sum_magnitudes l.
Proof. induction l as [| p l IH]; unfold sum_magnitudes in *; cbn; lia. Qed.

Lemma sum_prices_magnitudes l : Z.abs (sum_prices l) <= sum_magnitudes l.
Proof.
  induction l as [| p l IH]; unfold sum_prices, sum_magnitudes in *; cbn; lia.
Qed.

Lemma sum_prices_take k l :
  Z.abs (sum_prices (take k l)) <= sum_magnitudes l.
Proof.
  rewrite <- (take_drop k l) at 2. rewrite sum_magnitudes_app.
  pose proof (sum_prices_magnitudes (take k l)).
  pose proof (sum_magnitudes_nonneg (drop k l)). lia.
Qed.

Lemma present_take k values :
  sum_magnitudes (present (take k values))
  <= sum_magnitudes (present values).
Proof.
  rewrite <- (take_drop k values) at 2. unfold present.
  rewrite omap_app, sum_magnitudes_app.
  pose proof (sum_magnitudes_nonneg (omap (fun slot => slot) (drop k values))).
  lia.
Qed.

(** X22. The two totals, for picked prices that are integers (or [NaN])
    whose magnitudes add up to at most 2^53. On the way to either total
    every running sum is then an integer of magnitude at most 2^53, which
    a double holds exactly, so no addition rounds. The builder's total
    counts a price that is [NaN] as 0 and is the sum of the others,
    whatever the order in which [Object.values] lists the slots and
    however many cleared slots it lists. The summary's total adds the
    prices as they are: it is the same number when no picked price is
    [NaN], and [NaN] as soon as one is. *)
Theorem totals_agree_on_numbers (selection : Selection)
    (values : list (option Product)) :
  present values ≡ₚ Summary.items selection ->
  sum_magnitudes (Summary.items selection) <= 2 ^ 53 ->
  selectedTotal values = Int (sum_prices (Summary.items selection)) /\
  ((forall p, p ∈ Summary.items selection -> price p <> NaN) ->
   Summary.total selection = selectedTotal values) /\
  ((exists p, p ∈ Summary.items selection /\ price p = NaN) ->
   Summary.total selection = NaN) /\
  (forall k, exists z,
      selectedTotal (take k values) = Int z /\ Z.abs z <= 2 ^ 53) /\
  ((forall p, p ∈ Summary.items selection -> price p <> NaN) ->
   forall k, exists z,
     fold_left (fun s p => num_add s (price p))
       (take k (Summary.items selection)) (Int 0) = Int z /\
     Z.abs z <= 2 ^ 53).
Proof.
  intros Hperm Hbound.
  assert (selectedTotal values = Int (sum_prices (Summary.items selection)))
    as Hsel.
  { unfold selectedTotal. rewrite selectedTotal_fold.
    by rewrite (sum_prices_Permutation _ _ Hperm). }
  split_and!; [done | | | |].
  - intros Hnum. rewrite Hsel. unfold Summary.total.
    by rewrite total_fold_numbers.
  - intros Hnan. unfold Summary.total. by apply total_fold_some_NaN.
  - intros k. eexists. split.
    + unfold selectedTotal. apply selectedTotal_fold.
    + pose proof (sum_prices_magnitudes (present (take k values))).
      pose proof (present_take k values).
      rewrite (sum_magnitudes_Permutation _ _ Hperm) in *. lia.
  - intros Hnum k. eexists. split.
    + apply total_fold_numbers. intros p Hp. apply Hnum.
      by apply (subseteq_take k).
    + pose proof (sum_prices_take k (Summary.items selection)). lia.
Qed.

Lemma totals_agree_on_numbers_witness :
  selectedTotal [Some Demo.rtx; None; Some Demo.ryzen]
  = Int (sum_prices
           (Summary.items (<[GPU := Demo.rtx]> (<[CPU := Demo.ryzen]> ∅)))) /\
  Summary.total (<[GPU := Demo.rtx]> (<[CPU := Demo.ryzen]> ∅))
  = selectedTotal [Some Demo.rtx; None; Some Demo.ryzen].
Proof.
  destruct (totals_agree_on_numbers
              (<[GPU := Demo.rtx]> (<[CPU := Demo.ryzen]> ∅))
              [Some Demo.rtx; None; Some Demo.ryzen])
    as (Hsel & Hnum & _).
  - vm_compute. apply perm_swap.
  - vm_compute. discriminate.
  - split; [exact Hsel |]. apply Hnum. intros p Hp. vm_compute in Hp.
    repeat (apply elem_of_cons in Hp as [-> | Hp]; [discriminate |]).
    by apply elem_of_nil in Hp.
Defined.

(** A part imported with a price that is not numeric: the builder shows
    the total of the others, the summary shows [NaN]. *)
Example total_with_a_NaN_price :
  selectedTotal
    [Some Demo.ryzen;
     Some (rowToProduct (fun _ => None) "u"
             [("Category", VStr "GPU"); ("Price", VStr "call us")])]
  = Int 7490 /\
  Summary.total
    (<[CPU := Demo.ryzen]>
       (<[GPU := rowToProduct (fun _ => None) "u"
                   [("Category", VStr "GPU"); ("Price", VStr "call us")]]> ∅))
  = NaN.
Proof. vm_compute. done. Qed.

(** ** Slots *)

(** X23. Picks compose slot by slot: a second [selectPart] on the same
    category replaces the first, [selectPart]s on different categories
    commute, the slot reads back what was put in it, and clearing a slot
    that was empty before the pick brings the state back. *)
Theorem selectPart_algebra (st : AppState) (c c' : Category)
    (p q : option Product) :
  selectPart c q (selectPart c p st) = selectPart c q st /\
  (c <> c' ->
   selectPart c p (selectPart c' q st) = selectPart c' q (selectPart c p st)) /\
  build (selectPart c p st) !! c = p /\
  (build st !! c = None -> selectPart c None (selectPart c p st) = st).
Proof.
  destruct st as [inv b]. unfold selectPart. cbn [inventory build].
  split_and!.
  - f_equal. apply map_eq. intros k.
    destruct p, q; repeat (rewrite lookup_insert || rewrite lookup_delete);
      repeat case_decide; congruence.
  - intros Hne. f_equal. apply map_eq. intros k.
    destruct p, q; repeat (rewrite lookup_insert || rewrite lookup_delete);
      repeat case_decide; congruence.
  - destruct p; [apply lookup_insert_eq | apply lookup_delete_eq].
  - intros Hempty. f_equal. apply map_eq. intros k.
    destruct p; repeat (rewrite lookup_insert || rewrite lookup_delete);
      repeat case_decide; congruence.
Qed.

Lemma selectPart_algebra_witness :
  selectPart CPU None (selectPart CPU (Some Demo.ryzen) Demo.start)
  = Demo.start.
Proof.
  destruct (selectPart_algebra Demo.start CPU CPU (Some Demo.ryzen) None)
    as (_ & _ & _ & Hback).
  apply Hback. reflexivity.
Defined.

(** ** Importing into the catalog *)

(** X24. A successful import puts one product per row in front of the
    inventory, in the order of the sheet, the product of row [i] being
    [rowToProduct] of that row with the identifier drawn for it; every
    product that was there keeps its place after them, and the build is
    not touched. A read that fails changes nothing. *)
Theorem handleImport_prepends
    (JSON_parse : string -> option value) (uid : nat -> string)
    (json : list Row) (st : AppState) :
  (forall i row,
      json !! i = Some row ->
      inventory (handleImport (inr (productsOfRows JSON_parse uid json)) st)
        !! i = Some (rowToProduct JSON_parse (uid i) row)) /\
  (forall j,
      inventory (handleImport (inr (productsOfRows JSON_parse uid json)) st)
        !! (length json + j)%nat = inventory st !! j) /\
  length (inventory (handleImport (inr (productsOfRows JSON_parse uid json)) st))
  = (length json + length (inventory st))%nat /\
  build (handleImport (inr (productsOfRows JSON_parse uid json)) st)
  = build st /\
  (forall e, handleImport (inl e) st = st).
Proof.
  cbn [handleImport inventory build].
  assert (length (productsOfRows JSON_parse uid json) = length json) as Hlen
    by apply length_imap.
  split_and!.
  - intros i row Hrow. rewrite lookup_app_l.
    + unfold productsOfRows. by rewrite list_lookup_imap, Hrow.
    + rewrite Hlen. by apply lookup_lt_Some in Hrow.
  - intros j. rewrite lookup_app_r by lia. f_equal. lia.
  - by rewrite length_app, Hlen.
  - reflexivity.
  - reflexivity.
Qed.

Lemma handleImport_prepends_witness :
  inventory
    (handleImport
       (inr (productsOfRows (fun _ => None) (fun i => "row" +:+ pretty i)
               [[("Name", VStr "A")]; [("Name", VStr "B")]]))
       Demo.start) !! 1%nat
  = Some (rowToProduct (fun _ => None) "row1" [("Name", VStr "B")]).
Proof.
  destruct (handleImport_prepends (fun _ => None)
              (fun i => "row" +:+ pretty i)
              [[("Name", VStr "A")]; [("Name", VStr "B")]] Demo.start)
    as (Hrow & _).
  apply (Hrow 1%nat). reflexivity.
Defined.
